(** * F1 Lap Replay: the lap endpoint of [src/main.py]

    A shallow embedding of [get_lap_data], the handler of
    [GET /api/lap/{year}/{round}/{session}/{driver}], with the properties
    its specification states about it.

    Conventions of the embedding.
    - A Python [float] is an exact rational or NaN ([pyfloat]); rounding
      and infinities are not represented.
    - A pandas [DataFrame] is its column labels and its rows in frame
      order, every row carrying its index label.  Index labels may repeat,
      as pandas allows.
    - Calls into the fastf1 library are recorded in a trace, in call
      order; what they return or raise is given by the arguments
      ([Provider], the accessors of a [Lap]). *)

From Stdlib Require Import ZArith QArith String Ascii List Lia Lqa.
From stdpp Require Import base option list gmap strings.

Open Scope string_scope.
Open Scope list_scope.
Open Scope Z_scope.

(** ** Python values *)

(** [float]: a finite value or NaN. *)
Inductive pyfloat : Type :=
  | Fin (q : Q)
  | NaN.

(** [pd.notna] / [pd.isna] on a scalar cell. *)
Definition notna (v : pyfloat) : bool :=
  match v with Fin _ => true | NaN => false end.

(** [a - b], [a / b], [a != b], and the two-argument minimum and maximum
    numpy folds with: NaN propagates, and [!=] with a NaN is true.  A
    quotient by zero is not a finite value and is kept as NaN; the handler
    never divides by zero (see [normalized_on_intro]). *)
Definition fsub (a b : pyfloat) : pyfloat :=
  match a, b with Fin p, Fin q => Fin (p - q) | _, _ => NaN end.

Definition fdiv (a b : pyfloat) : pyfloat :=
  match a, b with
  | Fin p, Fin q => if Qeq_bool q 0 then NaN else Fin (p / q)
  | _, _ => NaN
  end.

Definition fne (a b : pyfloat) : bool :=
  match a, b with Fin p, Fin q => negb (Qeq_bool p q) | _, _ => true end.

Definition fmin (a b : pyfloat) : pyfloat :=
  match a, b with
  | Fin p, Fin q => if Qle_bool p q then Fin p else Fin q
  | _, _ => NaN
  end.

Definition fmax (a b : pyfloat) : pyfloat :=
  match a, b with
  | Fin p, Fin q => if Qle_bool p q then Fin q else Fin p
  | _, _ => NaN
  end.

(** [int(v)] on a finite float truncates toward zero. *)
Definition trunc (q : Q) : Z := Z.quot (Qnum q) (Zpos (Qden q)).

(** A pandas [Timedelta] is its int64 count of nanoseconds; the null
    value [NaT] is the least int64. *)
Definition Timedelta : Type := Z.
Definition NaT : Timedelta := - 2 ^ 63.
Definition isna (t : Timedelta) : bool := t =? NaT.

(** ** Exceptions and the handler monad *)

Inductive error_kind : Type :=
  | KeyError | IndexError | TypeError | ValueError
  | LibraryError.   (* raised inside fastf1 *)

(** [HTTPException(status_code, detail)], or any other exception with
    its [str(e)]. *)
Inductive exn : Type :=
  | HTTPException (status_code : Z) (detail : string)
  | PyError (kind : error_kind) (msg : string).

Definition str (e : exn) : string :=
  match e with
  | HTTPException c d => d
  | PyError _ msg => msg
  end.

Inductive result (A : Type) : Type :=
  | Ok (a : A)
  | Raise (e : exn).
Arguments Ok {A} a.
Arguments Raise {A} e.

#[global] Instance result_ret : MRet result := fun A a => Ok a.
#[global] Instance result_bind : MBind result := fun A B f m =>
  match m with Ok a => f a | Raise e => Raise e end.

(** What a call into the library does: return a value or raise an
    exception with the given text. *)
Inductive outcome (A : Type) : Type :=
  | Returns (a : A)
  | Raises (msg : string).
Arguments Returns {A} a.
Arguments Raises {A} msg.

Definition of_outcome {A} (o : outcome A) : result A :=
  match o with Returns a => Ok a | Raises msg => Raise (PyError LibraryError msg) end.

(** The keyword arguments of [Session.load]; [None] is an argument left
    to its default. *)
Record load_args : Type := LoadArgs {
  arg_telemetry : option bool;
  arg_laps : option bool;
  arg_weather : option bool;
  arg_messages : option bool
}.

#[global] Instance load_args_eq_dec : EqDecision load_args.
Proof. solve_decision. Defined.

(** The library calls of the handler. *)
Inductive call : Type :=
  | SessionLoad (args : load_args)   (* get_session(..) and .load(args) *)
  | GetTelemetry
  | GetPosData
  | GetCarData.

#[global] Instance call_eq_dec : EqDecision call.
Proof. solve_decision. Defined.

(** A handler computation: the calls made, in order, and the result. *)
Definition handler (A : Type) : Type := list call * result A.

#[global] Instance handler_ret : MRet handler := fun A a => ([], Ok a).
#[global] Instance handler_bind : MBind handler := fun A B f m =>
  match m with
  | (t, Ok a) => let '(t', r) := f a in (t ++ t', r)
  | (t, Raise e) => (t, Raise e)
  end.

Definition raise {A} (e : exn) : handler A := ([], Raise e).
Definition lift {A} (r : result A) : handler A := ([], r).
Definition invoke {A} (c : call) (o : outcome A) : handler A := ([c], of_outcome o).

(** [try: m  except Exception as e: h e] *)
Definition try_except {A} (m : handler A) (h : exn -> handler A) : handler A :=
  match m with
  | (t, Ok a) => (t, Ok a)
  | (t, Raise e) => let '(t', r) := h e in (t ++ t', r)
  end.

(** ** Strings *)

(** [s.lower()] on ASCII text. *)
Definition lower_ascii (c : ascii) : ascii :=
  let n := nat_of_ascii c in
  if (65 <=? n)%nat && (n <=? 90)%nat then ascii_of_nat (n + 32) else c.

Fixpoint lower (s : string) : string :=
  match s with
  | EmptyString => EmptyString
  | String c t => String (lower_ascii c) (lower t)
  end.

(** [hay.startswith(needle)] and [needle in hay] *)
Fixpoint startswith (needle hay : string) : bool :=
  match needle, hay with
  | EmptyString, _ => true
  | String a n, String b h => Ascii.eqb a b && startswith n h
  | String _ _, EmptyString => false
  end.

Fixpoint contains (needle hay : string) : bool :=
  startswith needle hay ||
  match hay with
  | EmptyString => false
  | String _ t => contains needle t
  end.

(** ** pandas frames *)

(** A row is its cells by column label.  Every column holds floats, NaN
    for a missing value; the [Time] column holds a [Timedelta], kept as
    its [total_seconds()], NaT being NaN. *)
Record DataFrame : Type := {
  columns : list string;
  rows : list (Z * gmap string pyfloat)
}.

(** [c in df.columns] *)
Definition has_column (c : string) (df : DataFrame) : bool :=
  bool_decide (c ∈ columns df).

(** [df.empty]: an axis of length zero. *)
Definition empty (df : DataFrame) : bool :=
  match rows df, columns df with
  | [], _ => true
  | _, [] => true
  | _, _ => false
  end.

(** [df.index] and [len(df)] *)
Definition index (df : DataFrame) : list Z := map fst (rows df).
Definition len (df : DataFrame) : nat := length (rows df).

Definition repr (c : string) : string := "'" +:+ c +:+ "'".

(** [row[c]] for a row of a frame with the columns [cols]; the index of a
    row yielded by [iterrows] is the frame's [columns]. *)
Definition getitem (cols : list string) (row : gmap string pyfloat) (c : string)
  : result pyfloat :=
  if bool_decide (c ∈ cols) then Ok (default NaN (row !! c))
  else Raise (PyError KeyError (repr c)).

(** [df[c].values] *)
Definition values (df : DataFrame) (c : string) : result (list pyfloat) :=
  if has_column c df then Ok (map (fun r => default NaN (r.2 !! c)) (rows df))
  else Raise (PyError KeyError (repr c)).

Definition dquote : string := String "034"%char EmptyString.

Fixpoint join (sep : string) (l : list string) : string :=
  match l with
  | [] => EmptyString
  | [s] => s
  | s :: t => s +:+ sep +:+ join sep t
  end.

(** [df[cols]]: the frame restricted to the listed columns; a listed
    column that the frame lacks is a KeyError (the text is the one for
    a list of which some labels are found). *)
Definition getitem_columns (df : DataFrame) (cols : list string) : result DataFrame :=
  match filter (fun c => c ∉ columns df) cols with
  | [] => Ok {| columns := cols;
                rows := map (fun r => (r.1, filter (fun kv => kv.1 ∈ cols) r.2)) (rows df) |}
  | missing =>
      Raise (PyError KeyError
               (dquote +:+ "[" +:+ join ", " (map repr missing) +:+ "] not in index" +:+ dquote))
  end.

(** Column labels of a merge: a label found on both sides gets the
    side's suffix. *)
Definition suffixed (suffix : string) (others : list string) (c : string) : string :=
  if bool_decide (c ∈ others) then c +:+ suffix else c.

Definition merge_row (lcols rcols : list string) (l r : gmap string pyfloat)
  : gmap string pyfloat :=
  list_to_map
    (map (fun c => (suffixed "_x" rcols c, default NaN (l !! c))) lcols ++
     map (fun c => (suffixed "_y" lcols c, default NaN (r !! c))) rcols).

(** [left.merge(right, left_index=True, right_index=True, how='inner')]:
    one row for every pair of a left and a right row with the same index
    label, in the order of the left frame. *)
Definition merge (left right : DataFrame) : DataFrame :=
  {| columns := map (suffixed "_x" (columns right)) (columns left) ++
                map (suffixed "_y" (columns left)) (columns right);
     rows := flat_map
               (fun l => map (fun r => (l.1, merge_row (columns left) (columns right) l.2 r.2))
                             (filter (fun r => r.1 = l.1) (rows right)))
               (rows left) |}.

(** [a.min()], [a.max()] of a numpy array: NaN if any element is. *)
Definition np_min (a : list pyfloat) : result pyfloat :=
  match a with
  | [] => Raise (PyError ValueError
                   "zero-size array to reduction operation minimum which has no identity")
  | v :: vs => Ok (fold_left fmin vs v)
  end.

Definition np_max (a : list pyfloat) : result pyfloat :=
  match a with
  | [] => Raise (PyError ValueError
                   "zero-size array to reduction operation maximum which has no identity")
  | v :: vs => Ok (fold_left fmax vs v)
  end.

(** [s.max()] of a pandas Series: NaN values are skipped; NaN if there is
    no other. *)
Definition series_max (s : list pyfloat) : pyfloat :=
  match filter (fun v => notna v = true) s with
  | [] => NaN
  | v :: vs => fold_left fmax vs v
  end.

(** ** The data provider *)

Record Lap : Type := {
  Driver : string;
  LapNumber : Z;
  LapTime : Timedelta;
  get_telemetry : outcome DataFrame;
  get_pos_data : outcome DataFrame;
  get_car_data : outcome DataFrame
}.

Record Session : Type := {
  laps : list Lap;
  EventName : string;
  Location : string;
  Country : string
}.

(** [fastf1.get_session(year, round, session)] followed by [.load(args)]. *)
Definition Provider : Type := Z -> Z -> string -> load_args -> outcome Session.

(** Modelled from the spec: [Laps.pick_drivers] is code of the fastf1
    library; section 4.2 has it keep the session's laps that belong to
    the given driver. *)
Definition pick_drivers (driver : string) (ls : list Lap) : list Lap :=
  filter (fun l => Driver l = driver) ls.

(** Modelled from the spec: [Laps.pick_fastest] is code of the fastf1
    library; sections 4.2 and 8 have it return the lap of minimum non-null
    lap time, and never a lap whose lap time is null.  Of several laps with
    that time the first is taken; without any timed lap there is no lap. *)
Definition faster (best l : Lap) : Lap :=
  if LapTime l <? LapTime best then l else best.

Definition pick_fastest (ls : list Lap) : option Lap :=
  match filter (fun l => isna (LapTime l) = false) ls with
  | [] => None
  | l :: rest => Some (fold_left faster rest l)
  end.

(** ** Response models *)

Module TelemetryPoint.
Record t : Type := mk {
  x : pyfloat;
  y : pyfloat;
  speed : pyfloat;
  throttle : pyfloat;
  brake : pyfloat;
  gear : Z;
  rpm : pyfloat;
  drs : Z;
  distance : pyfloat;
  time : pyfloat
}.
End TelemetryPoint.

Record Bounds : Type := { min : pyfloat; max : pyfloat }.

Record TrackInfo : Type := {
  name : string;
  location : string;
  country : string;
  x_bounds : Bounds;
  y_bounds : Bounds;
  total_distance : pyfloat
}.

(** [lap_time] is [str(lap['LapTime'])]; the rendering of a Timedelta is
    not modelled, the field keeps the value. *)
Module LapDataResponse.
Record t : Type := mk {
  driver : string;
  lap_number : Z;
  lap_time : Timedelta;
  telemetry : list TelemetryPoint.t;
  track_info : TrackInfo
}.
End LapDataResponse.

(** ** get_lap_data *)

(** *** Loading the session (lines 139-149) *)

Definition full_load : load_args :=
  LoadArgs (Some true) (Some true) (Some false) (Some false).
Definition reduced_load : load_args :=
  LoadArgs (Some true) (Some true) None None.

Definition is_transient (e : exn) : bool :=
  contains "ergast" (lower (str e)) || contains "timeout" (lower (str e)).

Definition f1_session (fastf1 : Provider) (year round : Z) (session : string)
  : handler Session :=
  try_except
    (invoke (SessionLoad full_load) (fastf1 year round session full_load))
    (fun e =>
       if is_transient e
       then invoke (SessionLoad reduced_load) (fastf1 year round session reduced_load)
       else raise e).

(** *** Selecting the lap (lines 161-164) *)

(** [if lap_number:] on an [Optional[int]] *)
Definition truthy (lap_number : option Z) : bool :=
  match lap_number with
  | Some n => negb (n =? 0)
  | None => false
  end.

(** [.iloc[0]] *)
Definition iloc0 {A} (l : list A) : result A :=
  match l with
  | a :: _ => Ok a
  | [] => Raise (PyError IndexError "single positional indexer is out-of-bounds")
  end.

Definition select_lap (driver_laps : list Lap) (lap_number : option Z)
  : result (option Lap) :=
  if truthy lap_number
  then l ← iloc0 (filter (fun l => Some (LapNumber l) = lap_number) driver_laps);
       mret (Some l)
  else Ok (pick_fastest driver_laps).

(** [lap[...]] on what was selected; [None] is not subscriptable. *)
Definition subscript (lap : option Lap) : result Lap :=
  match lap with
  | Some l => Ok l
  | None => Raise (PyError TypeError "'NoneType' object is not subscriptable")
  end.

(** *** The position source (lines 190-219) *)

Definition has_xy (df : DataFrame) : bool :=
  has_column "X" df && has_column "Y" df.

Definition no_position_detail : string :=
  "No position data (X, Y coordinates) available for this lap. Try a different session (Qualifying often has better data).".

Definition pos_data (lap : Lap) : handler DataFrame :=
  pos_data ← try_except
    (invoke GetPosData (get_pos_data lap))
    (fun _ => raise (HTTPException 404 "No position data available for this lap"));
  let has_pos_data := negb (empty pos_data) && has_xy pos_data in
  found ←
    (if negb has_pos_data then
       try_except
         (car_data ← invoke GetCarData (get_car_data lap);
          if negb (empty car_data) && has_xy car_data
          then mret (car_data, true)
          else mret (pos_data, has_pos_data))
         (fun _ => mret (pos_data, has_pos_data))
     else mret (pos_data, has_pos_data));
  let '(pos_data, has_pos_data) := found in
  if negb has_pos_data
  then raise (HTTPException 404 no_position_detail)
  else mret pos_data.

(** *** Merging telemetry with the position data (lines 186-231) *)

Definition pos_columns (telemetry pos_data : DataFrame) : list string :=
  ["X"; "Y"; "Z"] ++
  (if has_column "Distance" pos_data && negb (has_column "Distance" telemetry)
   then ["Distance"] else []).

Definition merged_data (lap : Lap) (telemetry : DataFrame) : handler DataFrame :=
  if has_column "X" telemetry && has_column "Y" telemetry
  then mret telemetry
  else
    pos_data ← pos_data lap;
    projected ← lift (getitem_columns pos_data (pos_columns telemetry pos_data));
    mret (merge telemetry projected).

(** *** Normalising and building the points (lines 239-276) *)

(** [hi - lo if hi != lo else 1] *)
Definition range (lo hi : pyfloat) : pyfloat :=
  if fne hi lo then fsub hi lo else Fin 1.

(** [float(v)], [int(v)] on a cell *)
Definition py_float (v : pyfloat) : result pyfloat := Ok v.
Definition py_int (v : pyfloat) : result Z :=
  match v with
  | Fin q => Ok (trunc q)
  | NaN => Raise (PyError ValueError "cannot convert float NaN to integer")
  end.

(** [float(row[c]) if pd.notna(row[c]) else 0.0] *)
Definition float_or_zero (cols : list string) (row : gmap string pyfloat) (c : string)
  : result pyfloat :=
  v ← getitem cols row c;
  if notna v then w ← getitem cols row c; py_float w else mret (Fin 0).

(** [int(row[c]) if pd.notna(row[c]) else 0] *)
Definition int_or_zero (cols : list string) (row : gmap string pyfloat) (c : string)
  : result Z :=
  v ← getitem cols row c;
  if notna v then w ← getitem cols row c; py_int w else mret 0.

(** Lines 258-262.  [row.index] is [merged_data.columns]. *)
Definition distance_val (cols : list string) (row : gmap string pyfloat)
  : result pyfloat :=
  defined ← (if bool_decide ("Distance" ∈ cols)
             then v ← getitem cols row "Distance"; mret (notna v)
             else mret false);
  if (defined : bool) then w ← getitem cols row "Distance"; py_float w
  else if bool_decide ("Distance" ∈ cols) then w ← getitem cols row "Distance"; py_float w
  else mret (Fin 0).

(** The body of the loop over [merged_data.iterrows()]. *)
Definition point (cols : list string) (x_min x_range y_min y_range : pyfloat)
    (row : gmap string pyfloat) : result TelemetryPoint.t :=
  X ← getitem cols row "X";
  let x_norm := fdiv (fsub X x_min) x_range in
  Y ← getitem cols row "Y";
  let y_norm := fdiv (fsub Y y_min) y_range in
  distance_val ← distance_val cols row;
  x ← py_float x_norm;
  y ← py_float y_norm;
  speed ← float_or_zero cols row "Speed";
  throttle ← float_or_zero cols row "Throttle";
  brake ← float_or_zero cols row "Brake";
  gear ← int_or_zero cols row "nGear";
  rpm ← float_or_zero cols row "RPM";
  drs ← int_or_zero cols row "DRS";
  time ← float_or_zero cols row "Time";
  mret (TelemetryPoint.mk x y speed throttle brake gear rpm drs distance_val time).

(** A [for] loop that appends one result per element and stops at the
    first exception. *)
Fixpoint for_each {A B} (f : A -> result B) (l : list A) : result (list B) :=
  match l with
  | [] => Ok []
  | a :: l' => b ← f a; bs ← for_each f l'; mret (b :: bs)
  end.

Definition telemetry_points (merged_data : DataFrame)
    (x_min x_range y_min y_range : pyfloat) : result (list TelemetryPoint.t) :=
  for_each (fun r => point (columns merged_data) x_min x_range y_min y_range r.2)
           (rows merged_data).

(** Lines 243-276: the bounds of both axes, then the points. *)
Definition normalize (merged_data : DataFrame)
  : result (Bounds * Bounds * list TelemetryPoint.t) :=
  x_coords ← values merged_data "X";
  y_coords ← values merged_data "Y";
  x_min ← np_min x_coords;
  x_max ← np_max x_coords;
  y_min ← np_min y_coords;
  y_max ← np_max y_coords;
  let x_range := range x_min x_max in
  let y_range := range y_min y_max in
  telemetry_points ← telemetry_points merged_data x_min x_range y_min y_range;
  mret ({| min := x_min; max := x_max |}, {| min := y_min; max := y_max |},
        telemetry_points).

(** *** The track information and the response (lines 278-302) *)

Definition total_distance_of (merged_data : DataFrame) : result pyfloat :=
  if has_column "Distance" merged_data
  then d ← values merged_data "Distance"; py_float (series_max d)
  else mret (Fin 0).

Definition response (f1_session : Session) (driver : string) (lap : Lap)
    (merged_data : DataFrame) : result LapDataResponse.t :=
  normalized ← normalize merged_data;
  let '(x_bounds, y_bounds, telemetry_points) := normalized in
  total_distance ← total_distance_of merged_data;
  let track_info :=
    {| name := EventName f1_session;
       location := Location f1_session;
       country := Country f1_session;
       x_bounds := x_bounds;
       y_bounds := y_bounds;
       total_distance := total_distance |} in
  mret (LapDataResponse.mk driver (LapNumber lap) (LapTime lap)
          telemetry_points track_info).

(** *** The handler *)

Definition is_nil {A} (l : list A) : bool :=
  match l with [] => true | _ => false end.

(** Lines 185-302: from the lap's telemetry to the response. *)
Definition reconcile (f1_session : Session) (driver : string) (lap : Lap)
    (telemetry : DataFrame) : handler LapDataResponse.t :=
  merged_data ← merged_data lap telemetry;
  if empty merged_data
  then raise (HTTPException 404 "Could not merge telemetry with position data")
  else lift (response f1_session driver lap merged_data).

(** Lines 151-302: from the loaded session to the response. *)
Definition lap_data (f1_session : Session) (driver : string) (lap_number : option Z)
  : handler LapDataResponse.t :=
  let driver_laps := pick_drivers driver (laps f1_session) in
  if is_nil driver_laps
  then raise (HTTPException 404 ("No laps found for driver " +:+ driver))
  else
    selected ← lift (select_lap driver_laps lap_number);
    lap ← lift (subscript selected);
    if isna (LapTime lap)
    then raise (HTTPException 404 "Selected lap has no valid lap time")
    else
      telemetry ← invoke GetTelemetry (get_telemetry lap);
      if empty telemetry
      then raise (HTTPException 404 "No telemetry data available for this lap")
      else reconcile f1_session driver lap telemetry.

(** The outer [except] clauses: an HTTPException passes, any other
    exception becomes a 500 with its text. *)
Definition to_http (e : exn) : exn :=
  match e with
  | HTTPException _ _ => e
  | PyError _ _ => HTTPException 500 (str e)
  end.

Definition get_lap_data (fastf1 : Provider) (year round : Z)
    (session driver : string) (lap_number : option Z) : handler LapDataResponse.t :=
  try_except
    (f1_session ← f1_session fastf1 year round session;
     lap_data f1_session driver lap_number)
    (fun e => raise (to_http e)).

(** ** get_drivers (lines 89-120) *)

(** [Session.load()] with every argument left to its default. *)
Definition default_load : load_args := LoadArgs None None None None.

(** [laps['Driver'].unique()]: the distinct values, in order of first
    appearance. *)
Fixpoint unique (l : list string) : list string :=
  match l with
  | [] => []
  | x :: t => x :: filter (fun y => y <> x) (unique t)
  end.

(** An entry of [drivers]; [fastest_lap] is [str(fastest_lap['LapTime'])],
    kept as the value. *)
Module DriverSummary.
Record t : Type := mk {
  code : string;
  fastest_lap : Timedelta;
  team : string
}.
End DriverSummary.

Module DriversResponse.
Record t : Type := mk {
  year : Z;
  round : Z;
  session : string;
  drivers : list DriverSummary.t
}.
End DriversResponse.

(** The body of the loop over the drivers: what it appends to [drivers].
    [Team l] is the [Team] cell of the lap row [l], a column that the
    [Lap] record does not carry. *)
Definition driver_summary (Team : Lap -> string) (all_laps : list Lap)
    (driver : string) : result (list DriverSummary.t) :=
  let driver_laps := pick_drivers driver all_laps in
  if negb (is_nil driver_laps)
  then
    fastest_lap ← subscript (pick_fastest driver_laps);
    if negb (isna (LapTime fastest_lap))
    then mret [DriverSummary.mk driver (LapTime fastest_lap) (Team fastest_lap)]
    else mret []
  else mret [].

(** The handler: one [except Exception] clause turns every exception into
    a 500 with its text. *)
Definition get_drivers (fastf1 : Provider) (Team : Lap -> string)
    (year round : Z) (session : string) : handler DriversResponse.t :=
  try_except
    (f1_session ← invoke (SessionLoad default_load)
                         (fastf1 year round session default_load);
     found ← lift (for_each (driver_summary Team (laps f1_session))
                            (unique (map Driver (laps f1_session))));
     mret (DriversResponse.mk year round session (concat found)))
    (fun e => raise (HTTPException 500 (str e))).

(** * Properties *)

(** ** Vocabulary of the statements *)

(** The [load] requests among the calls of a trace. *)
Definition session_loads (t : list call) : list load_args :=
  omap (fun c => match c with SessionLoad a => Some a | _ => None end) t.

(** The outer [except] clauses applied to a computation. *)
Definition at_boundary {A} (m : handler A) : handler A :=
  try_except m (fun e => raise (to_http e)).

(** A position source yields both X and Y. *)
Definition yields_xy (df : DataFrame) : bool := negb (empty df) && has_xy df.

(** The cell of a row, NaN when the row has none for the label. *)
Definition cell (row : gmap string pyfloat) (c : string) : pyfloat :=
  default NaN (row !! c).

(** The request gets as far as a non-empty telemetry stream: the session
    loads (with the calls [t]), a lap with a lap time is selected, and its
    telemetry is fetched. *)
Definition reaches_telemetry (fastf1 : Provider) (year round : Z)
    (session driver : string) (lap_number : option Z)
    (t : list call) (sess : Session) (lap : Lap) (telemetry : DataFrame) : Prop :=
  f1_session fastf1 year round session = (t, Ok sess) /\
  select_lap (pick_drivers driver (laps sess)) lap_number = Ok (Some lap) /\
  LapTime lap <> NaT /\
  get_telemetry lap = Returns telemetry /\
  empty telemetry = false.

(** Neither the position stream nor the car-dynamics stream of the lap
    yields X and Y. *)
Definition neither_source_yields (lap : Lap) : Prop :=
  (forall p, get_pos_data lap = Returns p -> yields_xy p = false) /\
  (forall c, get_car_data lap = Returns c -> yields_xy c = false).

(** The columns of the dynamics fields. *)
Definition dynamics : list string :=
  ["Speed"; "Throttle"; "Brake"; "nGear"; "RPM"; "DRS"; "Time"].

(** The point of a row, when its columns are there. *)
Definition or_zero (v : pyfloat) : pyfloat := if notna v then v else Fin 0.

Definition int_or_zero_of (v : pyfloat) : Z :=
  match v with Fin q => trunc q | NaN => 0 end.

Definition point_of (cols : list string) (x_bounds y_bounds : Bounds)
    (row : gmap string pyfloat) : TelemetryPoint.t :=
  {| TelemetryPoint.x :=
       fdiv (fsub (cell row "X") (min x_bounds)) (range (min x_bounds) (max x_bounds));
     TelemetryPoint.y :=
       fdiv (fsub (cell row "Y") (min y_bounds)) (range (min y_bounds) (max y_bounds));
     TelemetryPoint.speed := or_zero (cell row "Speed");
     TelemetryPoint.throttle := or_zero (cell row "Throttle");
     TelemetryPoint.brake := or_zero (cell row "Brake");
     TelemetryPoint.gear := int_or_zero_of (cell row "nGear");
     TelemetryPoint.rpm := or_zero (cell row "RPM");
     TelemetryPoint.drs := int_or_zero_of (cell row "DRS");
     TelemetryPoint.distance :=
       if bool_decide ("Distance" ∈ cols) then cell row "Distance" else Fin 0;
     TelemetryPoint.time := or_zero (cell row "Time") |}.



(** ** Sample sessions *)

Module Sample.

(** A sample with its dynamics fields (DRS undefined) and further
    cells. *)
Definition sample (seconds : Q) (more : list (string * pyfloat))
  : gmap string pyfloat :=
  list_to_map
    ([("Speed", Fin 250); ("Throttle", Fin 100); ("Brake", Fin 0);
      ("nGear", Fin 7); ("RPM", Fin 11000); ("DRS", NaN);
      ("Time", Fin seconds)] ++ more).

Definition position (x y z : Q) (more : list (string * pyfloat))
  : gmap string pyfloat :=
  list_to_map ([("X", Fin x); ("Y", Fin y); ("Z", Fin z)] ++ more).

(** Telemetry that carries its position; the second sample has no
    distance, and all samples have the same Y. *)
Definition telemetry_xy : DataFrame :=
  {| columns := dynamics ++ ["X"; "Y"; "Distance"];
     rows := [(0, sample 0 [("X", Fin 10); ("Y", Fin 5); ("Distance", Fin 0)]);
              (1, sample (1 # 2) [("X", Fin 30); ("Y", Fin 5); ("Distance", NaN)]);
              (2, sample 1 [("X", Fin 20); ("Y", Fin 5); ("Distance", Fin 14)])] |}.


(** Telemetry without position. *)
Definition telemetry_plain : DataFrame :=
  {| columns := dynamics;
     rows := [(0, sample 0 []); (1, sample (1 # 2) []); (2, sample 1 [])] |}.

Definition position_xyz : DataFrame :=
  {| columns := ["X"; "Y"; "Z"; "Distance"];
     rows := [(1, position 10 5 0 [("Distance", Fin 3)]);
              (2, position 30 9 0 [("Distance", Fin 8)]);
              (3, position 20 7 0 [("Distance", Fin 12)])] |}.

Definition position_xy : DataFrame :=
  {| columns := ["X"; "Y"];
     rows := [(0, list_to_map [("X", Fin 10); ("Y", Fin 5)]);
              (1, list_to_map [("X", Fin 30); ("Y", Fin 9)])] |}.

(** Streams in which an index label repeats. *)
Definition telemetry_repeated : DataFrame :=
  {| columns := dynamics; rows := [(0, sample 0 []); (0, sample 1 [])] |}.

Definition position_repeated : DataFrame :=
  {| columns := ["X"; "Y"; "Z"];
     rows := [(0, position 10 5 0 []); (0, position 30 9 0 [])] |}.

Definition lap (driver : string) (number : Z) (lap_time : Timedelta)
    (telemetry pos car : outcome DataFrame) : Lap :=
  {| Driver := driver; LapNumber := number; LapTime := lap_time;
     get_telemetry := telemetry; get_pos_data := pos; get_car_data := car |}.

Definition unavailable : outcome DataFrame := Raises "no data".

(** VER: lap 1 without a lap time, lap 5 timed. *)
Definition ver_1 : Lap :=
  lap "VER" 1 NaT (Returns telemetry_xy) unavailable unavailable.
Definition ver_5 : Lap :=
  lap "VER" 5 89708000000 (Returns telemetry_xy) unavailable unavailable.
(** HAM: telemetry and position are separate streams. *)
Definition ham_3 : Lap :=
  lap "HAM" 3 90100000000 (Returns telemetry_plain) (Returns position_xyz) unavailable.
(** LEC: a position stream without Z. *)
Definition lec_2 : Lap :=
  lap "LEC" 2 90200000000 (Returns telemetry_plain) (Returns position_xy) unavailable.
(** SAI: the position stream cannot be fetched, the car data has no
    position. *)
Definition sai_4 : Lap :=
  lap "SAI" 4 90300000000 (Returns telemetry_plain) unavailable
      (Returns telemetry_plain).
(** NOR: neither stream has a position. *)
Definition nor_6 : Lap :=
  lap "NOR" 6 90400000000 (Returns telemetry_plain) (Returns telemetry_plain)
      (Returns telemetry_plain).
(** ALB: repeated index labels. *)
Definition alb_7 : Lap :=
  lap "ALB" 7 90500000000 (Returns telemetry_repeated) (Returns position_repeated)
      unavailable.

Definition qualifying : Session :=
  {| laps := [ver_1; ver_5; ham_3; lec_2; sai_4; nor_6; alb_7];
     EventName := "Bahrain Grand Prix";
     Location := "Sakhir";
     Country := "Bahrain" |}.

(** A provider that answers every load. *)
Definition steady : Provider := fun _ _ _ _ => Returns qualifying.

(** A provider whose loads all time out. *)
Definition down : Provider := fun _ _ _ args =>
  if decide (args = full_load) then Raises "HTTPSConnectionPool: Read TIMEOUT"
  else Raises "connection refused".

End Sample.

(** ** Further sample sessions *)

Module Paddock.

(** Telemetry with its columns and no sample. *)
Definition telemetry_empty : DataFrame :=
  {| columns := dynamics ++ ["X"; "Y"]; rows := [] |}.

(** Telemetry with position but without the RPM column. *)
Definition telemetry_no_rpm : DataFrame :=
  {| columns := ["Speed"; "Throttle"; "Brake"; "nGear"; "DRS"; "Time"; "X"; "Y"];
     rows := [(0, Sample.sample 0 [("X", Fin 10); ("Y", Fin 5)]);
              (1, Sample.sample 1 [("X", Fin 30); ("Y", Fin 9)])] |}.

(** Telemetry with X but without Y. *)
Definition telemetry_x_only : DataFrame :=
  {| columns := dynamics ++ ["X"];
     rows := [(1, Sample.sample 0 [("X", Fin 10)]);
              (2, Sample.sample 1 [("X", Fin 30)])] |}.

(** A position stream whose labels are not those of the telemetry. *)
Definition position_late : DataFrame :=
  {| columns := ["X"; "Y"; "Z"];
     rows := [(7, Sample.position 10 5 0 []); (8, Sample.position 30 9 0 [])] |}.

Definition bot_1 : Lap :=
  Sample.lap "BOT" 1 91000000000 (Raises "no telemetry for this lap")
             Sample.unavailable Sample.unavailable.
Definition zho_2 : Lap :=
  Sample.lap "ZHO" 2 91100000000 (Returns telemetry_empty)
             Sample.unavailable Sample.unavailable.
Definition gas_3 : Lap :=
  Sample.lap "GAS" 3 91200000000 (Returns Sample.telemetry_plain)
             (Returns position_late) Sample.unavailable.
Definition oco_4 : Lap :=
  Sample.lap "OCO" 4 91300000000 (Returns telemetry_no_rpm)
             Sample.unavailable Sample.unavailable.
Definition str_5 : Lap :=
  Sample.lap "STR" 5 91400000000 (Returns telemetry_x_only)
             (Returns Sample.position_xyz) Sample.unavailable.

Definition race : Session :=
  {| laps := [bot_1; zho_2; gas_3; oco_4; str_5];
     EventName := "Bahrain Grand Prix";
     Location := "Sakhir";
     Country := "Bahrain" |}.

Definition steady : Provider := fun _ _ _ _ => Returns race.

(** A provider whose first load fails on the result service and whose
    reduced load succeeds. *)
Definition wobbly : Provider := fun _ _ _ args =>
  if decide (args = full_load) then Raises "Ergast API: Read TimeOut"
  else Returns Sample.qualifying.

Definition team_of (l : Lap) : string := "Team " +:+ Driver l.

End Paddock.

(** A session in which a lap has the number 0. *)
Module Grid.

(** TSU: lap 0, slow, and lap 8, the fastest. *)
Definition tsu_0 : Lap :=
  Sample.lap "TSU" 0 95000000000 (Returns Sample.telemetry_xy)
             Sample.unavailable Sample.unavailable.
Definition tsu_8 : Lap :=
  Sample.lap "TSU" 8 90000000000 (Returns Sample.telemetry_xy)
             Sample.unavailable Sample.unavailable.

Definition practice : Session :=
  {| laps := [tsu_0; tsu_8];
     EventName := "Bahrain Grand Prix";
     Location := "Sakhir";
     Country := "Bahrain" |}.

Definition steady : Provider := fun _ _ _ _ => Returns practice.

End Grid.

(** ** Further vocabulary *)

(** A computation that raises nothing but plain exceptions, and one that
    raises nothing but these and 404s. *)
Definition raises_plain {A} (r : result A) : Prop :=
  forall e, r = Raise e -> exists kind msg, e = PyError kind msg.

Definition raises_404_or_plain {A} (m : handler A) : Prop :=
  forall e, m.2 = Raise e ->
    (exists detail, e = HTTPException 404 detail) \/
    (exists kind msg, e = PyError kind msg).

(** The first of the dynamics columns that a frame lacks. *)
Definition first_missing (cols : list string) : option string :=
  find (fun c => negb (bool_decide (c ∈ cols))) dynamics.


(** ** The handler, stage by stage *)

Lemma at_boundary_ok {A} t (a : A) : at_boundary (t, Ok a) = (t, Ok a).
Proof. reflexivity. Qed.

Lemma at_boundary_raise {A} t e :
  at_boundary (A := A) (t, Raise e) = (t, Raise (to_http e)).
Proof. unfold at_boundary, try_except, raise. by rewrite app_nil_r. Qed.

Lemma at_boundary_http {A} t c d :
  at_boundary (A := A) (t, Raise (HTTPException c d)) = (t, Raise (HTTPException c d)).
Proof. apply at_boundary_raise. Qed.

Lemma at_boundary_prefix {A} t (m : handler A) :
  at_boundary (let '(t', r) := m in (t ++ t', r)) =
  let '(t', r) := at_boundary m in (t ++ t', r).
Proof.
  destruct m as [t' [a|e]]; [reflexivity|].
  rewrite !at_boundary_raise. reflexivity.
Qed.

Lemma get_lap_data_loaded fastf1 year round session driver lap_number t sess :
  f1_session fastf1 year round session = (t, Ok sess) ->
  get_lap_data fastf1 year round session driver lap_number =
  let '(t', r) := at_boundary (lap_data sess driver lap_number) in (t ++ t', r).
Proof.
  intros H. unfold get_lap_data. fold (@at_boundary LapDataResponse.t).
  unfold mbind at 1, handler_bind. rewrite H.
  apply (at_boundary_prefix t (lap_data sess driver lap_number)).
Qed.

Lemma get_lap_data_not_loaded fastf1 year round session driver lap_number t e :
  f1_session fastf1 year round session = (t, Raise e) ->
  get_lap_data fastf1 year round session driver lap_number = (t, Raise (to_http e)).
Proof.
  intros H. unfold get_lap_data. fold (@at_boundary LapDataResponse.t).
  unfold mbind at 1, handler_bind. rewrite H. apply at_boundary_raise.
Qed.

(** The three outcomes of loading. *)
Lemma f1_session_first fastf1 year round session sess :
  fastf1 year round session full_load = Returns sess ->
  f1_session fastf1 year round session = ([SessionLoad full_load], Ok sess).
Proof. intros H. unfold f1_session, invoke. by rewrite H. Qed.

Lemma f1_session_fatal fastf1 year round session msg :
  fastf1 year round session full_load = Raises msg ->
  contains "ergast" (lower msg) || contains "timeout" (lower msg) = false ->
  f1_session fastf1 year round session =
  ([SessionLoad full_load], Raise (PyError LibraryError msg)).
Proof.
  intros H Hn. unfold f1_session, invoke. rewrite H. cbn.
  unfold is_transient. cbn. by rewrite Hn.
Qed.

Lemma f1_session_retry fastf1 year round session msg :
  fastf1 year round session full_load = Raises msg ->
  contains "ergast" (lower msg) || contains "timeout" (lower msg) = true ->
  f1_session fastf1 year round session =
  ([SessionLoad full_load; SessionLoad reduced_load],
   of_outcome (fastf1 year round session reduced_load)).
Proof.
  intros H Hn. unfold f1_session, invoke. rewrite H. cbn.
  unfold is_transient. cbn. by rewrite Hn.
Qed.

(** The calls of each stage. *)
Lemma pos_data_calls lap :
  (pos_data lap).1 = [GetPosData] \/ (pos_data lap).1 = [GetPosData; GetCarData].
Proof.
  unfold pos_data, invoke, try_except, mbind, handler_bind, mret, handler_ret, raise.
  destruct (get_pos_data lap) as [p|m]; cbn; [|by left].
  destruct (negb (empty p) && has_xy p) eqn:E; cbn; [by left|].
  destruct (get_car_data lap) as [c|m]; cbn; [|by right].
  destruct (negb (empty c) && has_xy c); cbn; by right.
Qed.

Lemma reconcile_calls sess driver lap telemetry :
  (reconcile sess driver lap telemetry).1 = (merged_data lap telemetry).1.
Proof.
  unfold reconcile, mbind, handler_bind, raise, lift.
  destruct (merged_data lap telemetry) as [t [m|e]]; [|reflexivity].
  destruct (empty m); cbn; by rewrite app_nil_r.
Qed.

Lemma merged_data_calls lap telemetry :
  (merged_data lap telemetry).1 =
  if has_xy telemetry then [] else (pos_data lap).1.
Proof.
  unfold merged_data, has_xy, mbind, handler_bind, lift, mret, handler_ret.
  destruct (has_column "X" telemetry && has_column "Y" telemetry); [reflexivity|].
  destruct (pos_data lap) as [t [p|e]]; [|reflexivity].
  destruct (getitem_columns p (pos_columns telemetry p)); cbn; by rewrite ?app_nil_r.
Qed.

Lemma lap_data_calls sess driver lap_number :
  (lap_data sess driver lap_number).1 = [] \/
  exists lap telemetry,
    (lap_data sess driver lap_number).1 =
    GetTelemetry :: (if empty telemetry then [] else (merged_data lap telemetry).1).
Proof.
  unfold lap_data, mbind, handler_bind, lift, raise, invoke.
  destruct (is_nil _); [by left|].
  destruct (select_lap _ _) as [sel|e]; [|by left].
  destruct (subscript sel) as [lap|e]; [|by left]. cbn.
  destruct (isna (LapTime lap)); [by left|].
  right. exists lap.
  destruct (get_telemetry lap) as [tel|m]; cbn.
  - exists tel. destruct (empty tel); [reflexivity|].
    rewrite <- reconcile_calls with (sess := sess) (driver := driver).
    by destruct (reconcile sess driver lap tel).
  - by exists {| columns := []; rows := [] |}.
Qed.

Lemma lap_data_no_session_load sess driver lap_number :
  session_loads (lap_data sess driver lap_number).1 = [].
Proof.
  destruct (lap_data_calls sess driver lap_number) as [->|(lap & tel & ->)]; [reflexivity|].
  destruct (empty tel); [reflexivity|].
  rewrite merged_data_calls. destruct (has_xy tel); [reflexivity|].
  by destruct (pos_data_calls lap) as [->| ->].
Qed.

Lemma at_boundary_calls {A} (m : handler A) : (at_boundary m).1 = m.1.
Proof.
  destruct m as [t [a|e]]; [reflexivity|]. by rewrite at_boundary_raise.
Qed.

(** ** Text matching *)

Lemma append_cons a (s t : string) : String a s +:+ t = String a (s +:+ t).
Proof. reflexivity. Qed.

Lemma startswith_spec (n h : string) :
  startswith n h = true <-> exists s, h = n +:+ s.
Proof.
  revert h. induction n as [|a n IH]; intros h.
  - split; [intros _; by exists h | done].
  - destruct h as [|b h]; cbn [startswith].
    + split; [done | intros [s Hs]; discriminate Hs].
    + rewrite andb_true_iff, Ascii.eqb_eq, IH. split.
      * intros [-> [s ->]]. by exists s.
      * intros [s Hs]. rewrite append_cons in Hs. injection Hs as -> ->. eauto.
Qed.

(** [contains] is the substring test. *)
Lemma contains_spec (n h : string) :
  contains n h = true <-> exists p s, h = p +:+ n +:+ s.
Proof.
  induction h as [|b h IH]; cbn [contains].
  - rewrite orb_false_r, startswith_spec. split.
    + intros [s Hs]. by exists EmptyString, s.
    + intros (p & s & Hs). destruct p; [by exists s | discriminate Hs].
  - rewrite orb_true_iff, startswith_spec, IH. split.
    + intros [[s Hs] | (p & s & Hs)].
      * by exists EmptyString, s.
      * exists (String b p), s. by rewrite Hs.
    + intros (p & s & Hs). destruct p as [|c p].
      * left. by exists s.
      * right. exists p, s. rewrite append_cons in Hs. congruence.
Qed.

(** ** Session loading *)

(** C8. The first load attempt is the full request.  A second attempt is
    made, once and with the reduced request (telemetry and laps, weather
    and messages left to their defaults), exactly when the first one
    raised and the lower-cased error text contains "ergast" or "timeout".
    Any other first error, and any error of the second attempt, ends the
    request as a 500 that carries the error text. *)
Theorem session_load_retry_policy fastf1 year round session driver lap_number :
  let first := fastf1 year round session full_load in
  let second := fastf1 year round session reduced_load in
  let transient msg := contains "ergast" (lower msg) || contains "timeout" (lower msg) in
  let run := get_lap_data fastf1 year round session driver lap_number in
  (session_loads run.1 = [full_load] \/ session_loads run.1 = [full_load; reduced_load]) /\
  (session_loads run.1 = [full_load; reduced_load] <->
   exists msg, first = Raises msg /\ transient msg = true) /\
  (forall msg, first = Raises msg -> transient msg = false ->
     run = ([SessionLoad full_load], Raise (HTTPException 500 msg))) /\
  (forall msg msg2, first = Raises msg -> transient msg = true ->
     second = Raises msg2 ->
     run = ([SessionLoad full_load; SessionLoad reduced_load],
            Raise (HTTPException 500 msg2))) /\
  arg_weather reduced_load = None /\ arg_messages reduced_load = None /\
  arg_telemetry reduced_load = Some true /\ arg_laps reduced_load = Some true.
Proof.
  intros first second transient run.
  assert (Hloaded : forall t sess,
            f1_session fastf1 year round session = (t, Ok sess) ->
            session_loads run.1 = session_loads t).
  { intros t sess H. subst run.
    rewrite (get_lap_data_loaded _ _ _ _ driver lap_number _ _ H).
    pose proof (at_boundary_calls (lap_data sess driver lap_number)) as Hc.
    pose proof (lap_data_no_session_load sess driver lap_number) as Hn.
    destruct (at_boundary (lap_data sess driver lap_number)) as [t' r].
    cbn in Hc. subst t'. cbn. unfold session_loads in *.
    by rewrite omap_app, Hn, app_nil_r. }
  assert (Hfailed : forall t e,
            f1_session fastf1 year round session = (t, Raise e) ->
            run = (t, Raise (to_http e))).
  { intros t e H. subst run. by apply get_lap_data_not_loaded. }
  assert (Hcases :
    (exists sess, first = Returns sess /\ session_loads run.1 = [full_load]) \/
    (exists msg, first = Raises msg /\ transient msg = false /\
       run = ([SessionLoad full_load], Raise (HTTPException 500 msg))) \/
    (exists msg, first = Raises msg /\ transient msg = true /\
       session_loads run.1 = [full_load; reduced_load] /\
       forall msg2, second = Raises msg2 ->
         run = ([SessionLoad full_load; SessionLoad reduced_load],
                Raise (HTTPException 500 msg2)))).
  { destruct first as [sess|msg] eqn:E1.
    - left. exists sess. split; [done|].
      by rewrite (Hloaded _ _ (f1_session_first _ _ _ _ _ E1)).
    - right. destruct (transient msg) eqn:Et.
      + right. exists msg. split; [done|]. split; [done|].
        pose proof (f1_session_retry _ _ _ _ _ E1 Et) as Hr. fold second in Hr.
        destruct second as [sess|msg2] eqn:E2; cbn in Hr.
        * split; [by rewrite (Hloaded _ _ Hr) | done].
        * rewrite (Hfailed _ _ Hr). split; [done|].
          intros m [= <-]. done.
      + left. exists msg. split; [done|]. split; [done|].
        by rewrite (Hfailed _ _ (f1_session_fatal _ _ _ _ _ E1 Et)). }
  repeat split.
  - destruct Hcases as [(s & _ & H)|[(m & _ & _ & H)|(m & _ & _ & H & _)]];
      [by left | rewrite H; by left | by right].
  - intros H. destruct Hcases as [(s & _ & H')|[(m & _ & _ & H')|(m & E & Et & _)]].
    + rewrite H' in H. discriminate H.
    + rewrite H' in H. discriminate H.
    + by exists m.
  - intros (m & E & Et).
    destruct Hcases as [(s & E' & _)|[(m' & E' & Et' & _)|(m' & _ & _ & H & _)]];
      [congruence | | done].
    rewrite E in E'. injection E' as <-. congruence.
  - intros m E Et.
    destruct Hcases as [(s & E' & _)|[(m' & E' & _ & H)|(m' & E' & Et' & _)]];
      [congruence | | ].
    + rewrite E in E'. by injection E' as <-.
    + rewrite E in E'. injection E' as <-. congruence.
  - intros m m2 E Et E2.
    destruct Hcases as [(s & E' & _)|[(m' & E' & Et' & _)|(m' & _ & _ & _ & H)]];
      [congruence | | by apply H].
    rewrite E in E'. injection E' as <-. congruence.
Qed.

(** ** Lap selection *)

Lemma select_lap_by_number driver_laps n l rest :
  n <> 0 ->
  filter (fun l => Some (LapNumber l) = Some n) driver_laps = l :: rest ->
  select_lap driver_laps (Some n) = Ok (Some l).
Proof.
  intros Hn Hf. unfold select_lap, truthy.
  destruct (Z.eqb_spec n 0) as [|_]; [done|]. cbn. by rewrite Hf.
Qed.

Lemma select_lap_no_match driver_laps n :
  n <> 0 ->
  (forall l, l ∈ driver_laps -> LapNumber l <> n) ->
  select_lap driver_laps (Some n) =
  Raise (PyError IndexError "single positional indexer is out-of-bounds").
Proof.
  intros Hn Hno. unfold select_lap, truthy.
  destruct (Z.eqb_spec n 0) as [|_]; [done|]. cbn.
  destruct (filter _ driver_laps) as [|l rest] eqn:Hf; [reflexivity|].
  assert (Hl : l ∈ filter (fun l => Some (LapNumber l) = Some n) driver_laps)
    by (rewrite Hf; apply elem_of_cons; by left).
  apply list_elem_of_filter in Hl as [[= Hl] Hin]. by destruct (Hno l Hin).
Qed.

Lemma select_lap_nonempty driver_laps lap_number lap :
  select_lap driver_laps lap_number = Ok (Some lap) -> is_nil driver_laps = false.
Proof.
  destruct driver_laps; [|done]. unfold select_lap.
  destruct (truthy lap_number); cbn; discriminate.
Qed.

(** C4 (the code as it is).  A request with a non-zero lap number that no
    lap of the driver has ends as a 500 with the text of the IndexError of
    [.iloc[0]], not as a 404. *)
Theorem unmatched_lap_number_is_500 fastf1 year round session driver n t sess :
  f1_session fastf1 year round session = (t, Ok sess) ->
  n <> 0 ->
  pick_drivers driver (laps sess) <> [] ->
  (forall l, l ∈ pick_drivers driver (laps sess) -> LapNumber l <> n) ->
  get_lap_data fastf1 year round session driver (Some n) =
  (t, Raise (HTTPException 500 "single positional indexer is out-of-bounds")).
Proof.
  intros Hload Hn Hne Hno.
  rewrite (get_lap_data_loaded _ _ _ _ _ _ _ _ Hload).
  unfold lap_data. destruct (pick_drivers driver (laps sess)) eqn:E; [done|].
  cbn [is_nil]. rewrite (select_lap_no_match _ n Hn Hno).
  cbn. by rewrite app_nil_r.
Qed.

(** The fold of [pick_fastest] keeps a lap of the list whose time is
    least. *)
Lemma fold_faster_elem rest : forall l, fold_left faster rest l ∈ l :: rest.
Proof.
  induction rest as [|r rest IH]; intros l; cbn.
  - apply elem_of_cons; by left.
  - specialize (IH (faster l r)). apply elem_of_cons in IH as [->|IH].
    + unfold faster. destruct (LapTime r <? LapTime l); set_solver.
    + set_solver.
Qed.

Lemma faster_le l r :
  LapTime (faster l r) <= LapTime l /\ LapTime (faster l r) <= LapTime r.
Proof. unfold faster. destruct (Z.ltb_spec (LapTime r) (LapTime l)); lia. Qed.

Lemma fold_faster_le rest : forall l l',
  l' ∈ l :: rest -> LapTime (fold_left faster rest l) <= LapTime l'.
Proof.
  induction rest as [|r rest IH]; intros l l' Hin; cbn.
  - apply elem_of_cons in Hin as [->|Hin]; [lia | by apply elem_of_nil in Hin].
  - pose proof (faster_le l r) as [Hl Hr].
    pose proof (IH (faster l r) (faster l r) ltac:(left)) as Hbest.
    rewrite !elem_of_cons in Hin. destruct Hin as [->|[->|Hin]]; [lia | lia |].
    apply IH. by right.
Qed.

Lemma pick_fastest_spec ls l :
  pick_fastest ls = Some l ->
  l ∈ ls /\ LapTime l <> NaT /\
  forall l', l' ∈ ls -> LapTime l' <> NaT -> LapTime l <= LapTime l'.
Proof.
  unfold pick_fastest.
  destruct (filter _ ls) as [|f rest] eqn:Hf; [done|]. intros [= <-].
  assert (Hin : forall a, a ∈ f :: rest <-> isna (LapTime a) = false /\ a ∈ ls)
    by (intros a; rewrite <- Hf;
        apply (list_elem_of_filter (fun l => isna (LapTime l) = false))).
  pose proof (proj1 (Hin _) (fold_faster_elem rest f)) as [Hv Hls].
  split; [done|]. split.
  - unfold isna in Hv. by apply Z.eqb_neq.
  - intros l' Hl' Hv'. apply fold_faster_le, Hin. split; [|done].
    unfold isna. by apply Z.eqb_neq.
Qed.

Lemma pick_fastest_is_Some ls l :
  l ∈ ls -> LapTime l <> NaT -> is_Some (pick_fastest ls).
Proof.
  intros Hin Hv. unfold pick_fastest.
  destruct (filter _ ls) as [|f rest] eqn:Hf; [|by eexists].
  assert (Hl : l ∈ filter (fun l => isna (LapTime l) = false) ls).
  { apply list_elem_of_filter. split; [|done]. unfold isna. by apply Z.eqb_neq. }
  rewrite Hf in Hl. by apply elem_of_nil in Hl.
Qed.

Lemma null_lap_time_is_404 fastf1 year round session driver lap_number t sess lap :
  f1_session fastf1 year round session = (t, Ok sess) ->
  select_lap (pick_drivers driver (laps sess)) lap_number = Ok (Some lap) ->
  LapTime lap = NaT ->
  get_lap_data fastf1 year round session driver lap_number =
  (t, Raise (HTTPException 404 "Selected lap has no valid lap time")).
Proof.
  intros Hload Hsel Hnat.
  rewrite (get_lap_data_loaded _ _ _ _ _ _ _ _ Hload).
  unfold lap_data. rewrite (select_lap_nonempty _ _ _ Hsel), Hsel. cbn.
  unfold isna. rewrite Hnat, Z.eqb_refl. cbn. by rewrite app_nil_r.
Qed.

(** C5. Fastest-lap selection returns a lap of the list whose lap time is
    not null and is least among the lap times that are not null, whatever
    null-time laps the list holds (NaT is the least raw value there is);
    it returns a lap as soon as one lap has a time.  And a selected lap, by
    number or by fastest, whose lap time is null ends the request with the
    404 "Selected lap has no valid lap time". *)
Theorem null_lap_time_never_served :
  (forall ls l, pick_fastest ls = Some l ->
     l ∈ ls /\ LapTime l <> NaT /\
     forall l', l' ∈ ls -> LapTime l' <> NaT -> LapTime l <= LapTime l') /\
  (forall ls l, l ∈ ls -> LapTime l <> NaT -> is_Some (pick_fastest ls)) /\
  (forall fastf1 year round session driver lap_number t sess lap,
     f1_session fastf1 year round session = (t, Ok sess) ->
     select_lap (pick_drivers driver (laps sess)) lap_number = Ok (Some lap) ->
     LapTime lap = NaT ->
     get_lap_data fastf1 year round session driver lap_number =
     (t, Raise (HTTPException 404 "Selected lap has no valid lap time"))).
Proof.
  split; [exact pick_fastest_spec|].
  split; [exact pick_fastest_is_Some|].
  exact null_lap_time_is_404.
Qed.

(** ** Reconciliation *)

Lemma get_lap_data_reconcile fastf1 year round session driver lap_number t sess lap tel :
  reaches_telemetry fastf1 year round session driver lap_number t sess lap tel ->
  get_lap_data fastf1 year round session driver lap_number =
  let '(t', r) := at_boundary (reconcile sess driver lap tel) in
  (t ++ GetTelemetry :: t', r).
Proof.
  intros (Hload & Hsel & Htime & Htel & Hne).
  rewrite (get_lap_data_loaded _ _ _ _ _ _ _ _ Hload).
  unfold lap_data. rewrite (select_lap_nonempty _ _ _ Hsel), Hsel. cbn.
  unfold isna. destruct (Z.eqb_spec (LapTime lap) NaT) as [|_]; [done|].
  unfold invoke. rewrite Htel. cbn. rewrite Hne.
  by destruct (reconcile sess driver lap tel) as [t' [a|e]].
Qed.

Lemma reconcile_raise sess driver lap tel t e :
  merged_data lap tel = (t, Raise e) ->
  at_boundary (reconcile sess driver lap tel) = (t, Raise (to_http e)).
Proof.
  intros H. unfold reconcile, mbind, handler_bind. rewrite H.
  apply at_boundary_raise.
Qed.

(** The position source, case by case. *)
Lemma pos_data_fetch_fails lap msg :
  get_pos_data lap = Raises msg ->
  pos_data lap =
  ([GetPosData], Raise (HTTPException 404 "No position data available for this lap")).
Proof. intros H. unfold pos_data, invoke. by rewrite H. Qed.

Lemma pos_data_dedicated lap p :
  get_pos_data lap = Returns p -> yields_xy p = true ->
  pos_data lap = ([GetPosData], Ok p).
Proof.
  intros H Hy. unfold pos_data, invoke. rewrite H. unfold yields_xy in Hy.
  cbn -[negb andb has_xy empty]. by rewrite Hy.
Qed.

Lemma pos_data_car lap p c :
  get_pos_data lap = Returns p -> yields_xy p = false ->
  get_car_data lap = Returns c -> yields_xy c = true ->
  pos_data lap = ([GetPosData; GetCarData], Ok c).
Proof.
  intros H Hy Hc Hyc. unfold pos_data, invoke. rewrite H, Hc.
  unfold yields_xy in Hy, Hyc.
  cbn -[negb andb has_xy empty]. rewrite Hy.
  cbn -[negb andb has_xy empty]. by rewrite Hyc.
Qed.

Lemma pos_data_exhausted lap p :
  get_pos_data lap = Returns p -> yields_xy p = false ->
  (forall c, get_car_data lap = Returns c -> yields_xy c = false) ->
  pos_data lap = ([GetPosData; GetCarData], Raise (HTTPException 404 no_position_detail)).
Proof.
  intros H Hy Hc. unfold pos_data, invoke. rewrite H. unfold yields_xy in Hy.
  cbn -[negb andb has_xy empty]. rewrite Hy.
  destruct (get_car_data lap) as [c|m] eqn:E; cbn -[negb andb has_xy empty].
  - specialize (Hc c eq_refl). unfold yields_xy in Hc. by rewrite Hc.
  - reflexivity.
Qed.

Lemma pos_data_ok lap t pos :
  pos_data lap = (t, Ok pos) -> yields_xy pos = true.
Proof.
  destruct (get_pos_data lap) as [p|m] eqn:E.
  - destruct (yields_xy p) eqn:Hy.
    + rewrite (pos_data_dedicated _ _ E Hy). by intros [= <- <-].
    + destruct (get_car_data lap) as [c|m] eqn:Ec.
      * destruct (yields_xy c) eqn:Hyc.
        -- rewrite (pos_data_car _ _ _ E Hy Ec Hyc). by intros [= <- <-].
        -- rewrite (pos_data_exhausted _ _ E Hy); [done|]. congruence.
      * rewrite (pos_data_exhausted _ _ E Hy); [done|]. congruence.
  - by rewrite (pos_data_fetch_fails _ _ E).
Qed.

Lemma merged_data_pos_raise lap tel t e :
  has_xy tel = false -> pos_data lap = (t, Raise e) ->
  merged_data lap tel = (t, Raise e).
Proof.
  intros Hx H. unfold merged_data. unfold has_xy in Hx. rewrite Hx.
  unfold mbind, handler_bind. by rewrite H.
Qed.

(** C2 (as the code has it).  With a telemetry stream that lacks X or Y,
    the lap's position stream is fetched first.  When that fetch raises,
    the request ends with the 404 "No position data available for this
    lap" and the car-dynamics stream is not fetched.  When the position
    stream is fetched and yields X and Y it is the source, and the
    car-dynamics stream is not fetched.  Otherwise the car-dynamics stream
    is fetched and is the source if it yields X and Y; if no stream yields
    X and Y the request ends with the 404 that suggests another session. *)
Theorem position_source_priority
    fastf1 year round session driver lap_number t sess lap tel :
  reaches_telemetry fastf1 year round session driver lap_number t sess lap tel ->
  has_xy tel = false ->
  let run := get_lap_data fastf1 year round session driver lap_number in
  (forall msg, get_pos_data lap = Raises msg ->
     run = (t ++ [GetTelemetry; GetPosData],
            Raise (HTTPException 404 "No position data available for this lap"))) /\
  (forall p, get_pos_data lap = Returns p -> yields_xy p = true ->
     pos_data lap = ([GetPosData], Ok p)) /\
  (forall p c, get_pos_data lap = Returns p -> yields_xy p = false ->
     get_car_data lap = Returns c -> yields_xy c = true ->
     pos_data lap = ([GetPosData; GetCarData], Ok c)) /\
  (forall p, get_pos_data lap = Returns p -> yields_xy p = false ->
     (forall c, get_car_data lap = Returns c -> yields_xy c = false) ->
     run = (t ++ [GetTelemetry; GetPosData; GetCarData],
            Raise (HTTPException 404 no_position_detail))).
Proof.
  intros Hreach Hx run. subst run.
  rewrite (get_lap_data_reconcile _ _ _ _ _ _ _ _ _ _ Hreach).
  split; [|split; [|split]].
  - intros msg H.
    by rewrite (reconcile_raise _ _ _ _ _ _
                  (merged_data_pos_raise _ _ _ _ Hx (pos_data_fetch_fails _ _ H))).
  - apply pos_data_dedicated.
  - apply pos_data_car.
  - intros p H Hy Hc.
    by rewrite (reconcile_raise _ _ _ _ _ _
                  (merged_data_pos_raise _ _ _ _ Hx (pos_data_exhausted _ _ H Hy Hc))).
Qed.

(** *** The inner join *)

Lemma filter_index_absent {V} (i : Z) (R : list (Z * V)) :
  i ∉ map fst R -> filter (fun r => r.1 = i) R = [].
Proof.
  induction R as [|r R IH]; [done|]. cbn [map]. rewrite not_elem_of_cons.
  intros [Hne Hni]. rewrite filter_cons. destruct (decide (r.1 = i)); [done|].
  by apply IH.
Qed.

Lemma filter_index_unique {V} (i : Z) (R : list (Z * V)) :
  NoDup (map fst R) -> (length (filter (fun r => r.1 = i) R) <= 1)%nat.
Proof.
  induction R as [|r R IH]; [cbn; lia|]. cbn [map]. rewrite NoDup_cons.
  intros [Hni Hnd]. rewrite filter_cons. destruct (decide (r.1 = i)) as [<-|].
  - rewrite (filter_index_absent _ _ Hni). cbn. lia.
  - by apply IH.
Qed.





Lemma merge_rows (left right : DataFrame) i row :
  (i, row) ∈ rows (merge left right) <->
  exists l r, (i, l) ∈ rows left /\ (i, r) ∈ rows right /\
              row = merge_row (columns left) (columns right) l r.
Proof.
  unfold merge. cbn [rows]. rewrite list_elem_of_In, in_flat_map. split.
  - intros ([j l] & Hl & Hin). apply in_map_iff in Hin as ([k r] & [= <- <-] & Hr).
    apply list_elem_of_In, list_elem_of_filter in Hr as [Hk Hr]. cbn in Hk. subst k.
    exists l, r. by rewrite list_elem_of_In.
  - intros (l & r & Hl & Hr & ->). exists (i, l). rewrite <- list_elem_of_In.
    split; [done|]. apply in_map_iff. exists (i, r). split; [done|].
    apply list_elem_of_In, list_elem_of_filter. by split.
Qed.

Lemma elem_of_index (df : DataFrame) i :
  i ∈ index df <-> exists row, (i, row) ∈ rows df.
Proof.
  unfold index. rewrite list_elem_of_In, in_map_iff. split.
  - intros ([j row] & <- & Hin). exists row. by apply list_elem_of_In.
  - intros [row Hin]. exists (i, row). split; [done|]. by apply list_elem_of_In.
Qed.

Lemma merge_index (left right : DataFrame) i :
  i ∈ index (merge left right) <-> i ∈ index left /\ i ∈ index right.
Proof.
  rewrite !elem_of_index. split.
  - intros [row (l & r & Hl & Hr & _)%merge_rows]. eauto.
  - intros [[l Hl] [r Hr]]. eexists. apply merge_rows. eauto.
Qed.

(** *** Projection and the cells of a joined row *)

Lemma getitem_columns_ok (df df' : DataFrame) cols :
  getitem_columns df cols = Ok df' ->
  columns df' = cols /\ index df' = index df /\ len df' = len df /\
  forall i row', (i, row') ∈ rows df' ->
    exists row, (i, row) ∈ rows df /\
                forall c, c ∈ cols -> cell row' c = cell row c.
Proof.
  unfold getitem_columns. destruct (filter _ cols); [|done]. intros [= <-].
  cbn [columns rows]. unfold index, len. cbn [rows].
  rewrite map_map, length_map. cbn. repeat split; try done.
  intros i row' Hin. apply list_elem_of_In, in_map_iff in Hin as ([j row] & [= <- <-] & Hin).
  exists row. split; [by apply list_elem_of_In|]. intros c Hc. unfold cell. cbn.
  destruct (row !! c) as [v|] eqn:E.
  - by rewrite (map_lookup_filter_Some_2 _ _ _ _ E Hc).
  - rewrite (proj2 (map_lookup_filter_None _ _ _)); [done|]. by left.
Qed.

Lemma lookup_keyed_miss {V} (key : string -> string) (val : string -> V) cs rest k :
  (forall c, c ∈ cs -> key c <> k) ->
  (list_to_map (map (fun c => (key c, val c)) cs ++ rest) : gmap string V) !! k =
  (list_to_map rest : gmap string V) !! k.
Proof.
  induction cs as [|c cs IH]; intros H; [done|]. cbn.
  rewrite lookup_insert_ne; [|apply H; by left].
  apply IH. intros c' Hc'. apply H. by right.
Qed.

Lemma lookup_keyed_hit {V} (key : string -> string) (val : string -> V) cs rest k :
  k ∈ cs -> key k = k -> (forall c, c ∈ cs -> key c = k -> c = k) ->
  (list_to_map (map (fun c => (key c, val c)) cs ++ rest) : gmap string V) !! k =
  Some (val k).
Proof.
  induction cs as [|c cs IH]; intros Hin Hk H; [by apply elem_of_nil in Hin|]. cbn.
  destruct (decide (key c = k)) as [E|E].
  - rewrite E, lookup_insert_eq. f_equal. f_equal. apply H; [by left | done].
  - rewrite lookup_insert_ne; [|done]. apply IH; [|done|].
    + apply elem_of_cons in Hin as [->|Hin]; [done|done].
    + intros c' Hc'. apply H. by right.
Qed.




Lemma pos_columns_shape telemetry pos :
  pos_columns telemetry pos = ["X"; "Y"; "Z"] /\
    ("Distance" ∉ columns pos \/ "Distance" ∈ columns telemetry) \/
  pos_columns telemetry pos = ["X"; "Y"; "Z"; "Distance"] /\
    "Distance" ∈ columns pos /\ "Distance" ∉ columns telemetry.
Proof.
  unfold pos_columns, has_column.
  do 2 case_bool_decide; cbn [andb negb app]; tauto.
Qed.


Lemma merged_data_merge lap tel t m :
  has_xy tel = false -> merged_data lap tel = (t, Ok m) ->
  exists pos projected,
    pos_data lap = (t, Ok pos) /\
    getitem_columns pos (pos_columns tel pos) = Ok projected /\
    m = merge tel projected.
Proof.
  intros Hx. unfold merged_data. unfold has_xy in Hx. rewrite Hx.
  unfold mbind, handler_bind, lift, mret, handler_ret.
  destruct (pos_data lap) as [t1 [pos|e]]; [|done].
  destruct (getitem_columns pos (pos_columns tel pos)) as [proj|e] eqn:E; [|done].
  rewrite !app_nil_r. intros [= <- <-]. by exists pos, proj.
Qed.


(** *** The projection on X, Y and Z *)

Lemma yields_xy_columns df :
  yields_xy df = true -> "X" ∈ columns df /\ "Y" ∈ columns df /\ rows df <> [].
Proof.
  unfold yields_xy, has_xy, has_column, empty.
  rewrite !andb_true_iff, negb_true_iff, !bool_decide_eq_true.
  intros [He [HX HY]]. repeat split; try done. intros Hr. by rewrite Hr in He.
Qed.

Lemma projection_without_z telemetry pos :
  "X" ∈ columns pos -> "Y" ∈ columns pos -> "Z" ∉ columns pos ->
  getitem_columns pos (pos_columns telemetry pos) =
  Raise (PyError KeyError (dquote +:+ "['Z'] not in index" +:+ dquote)).
Proof.
  intros HX HY HZ. unfold getitem_columns.
  assert (Hf : filter (fun c => c ∉ columns pos) (pos_columns telemetry pos) = ["Z"]).
  { destruct (pos_columns_shape telemetry pos) as [[-> _]|(-> & HD & _)];
      repeat (rewrite filter_cons; case_decide; [done || tauto|]);
      try (rewrite filter_cons_True by done);
      repeat (rewrite filter_cons; case_decide; [done || tauto|]);
      by rewrite ?filter_nil. }
  by rewrite Hf.
Qed.

(** C10. Whenever telemetry and position are merged, the position source
    is projected on X, Y and Z, plus Distance under its condition; so with
    a chosen position source that has no Z column the request ends as a
    500 whose text is that of the KeyError of the projection, and nothing
    is merged. *)
Theorem position_source_without_z_is_500
    fastf1 year round session driver lap_number t sess lap tel t1 pos :
  reaches_telemetry fastf1 year round session driver lap_number t sess lap tel ->
  has_xy tel = false ->
  pos_data lap = (t1, Ok pos) ->
  "Z" ∉ columns pos ->
  (exists rest, pos_columns tel pos = ["X"; "Y"; "Z"] ++ rest /\
                (rest = [] \/ rest = ["Distance"])) /\
  (merged_data lap tel).2 =
    Raise (PyError KeyError (dquote +:+ "['Z'] not in index" +:+ dquote)) /\
  get_lap_data fastf1 year round session driver lap_number =
  (t ++ GetTelemetry :: t1,
   Raise (HTTPException 500 (dquote +:+ "['Z'] not in index" +:+ dquote))).
Proof.
  intros Hreach Hx Hpos HZ.
  destruct (yields_xy_columns _ (pos_data_ok _ _ _ Hpos)) as (HX & HY & _).
  assert (Hm : merged_data lap tel =
               (t1, Raise (PyError KeyError (dquote +:+ "['Z'] not in index" +:+ dquote)))).
  { unfold merged_data. unfold has_xy in Hx. rewrite Hx.
    unfold mbind, handler_bind, lift. rewrite Hpos.
    rewrite (projection_without_z tel pos HX HY HZ). by rewrite app_nil_r. }
  split; [|split].
  - destruct (pos_columns_shape tel pos) as [[-> _]|(-> & _)];
      [exists [] | exists ["Distance"]]; split; auto.
  - by rewrite Hm.
  - rewrite (get_lap_data_reconcile _ _ _ _ _ _ _ _ _ _ Hreach).
    by rewrite (reconcile_raise _ _ _ _ _ _ Hm).
Qed.

(** ** The normaliser *)

Lemma getitem_in cols row c : c ∈ cols -> getitem cols row c = Ok (cell row c).
Proof. intros H. unfold getitem. by rewrite bool_decide_eq_true_2. Qed.

Lemma getitem_out cols row c :
  c ∉ cols -> getitem cols row c = Raise (PyError KeyError (repr c)).
Proof. intros H. unfold getitem. by rewrite bool_decide_eq_false_2. Qed.

Lemma float_or_zero_in cols row c :
  c ∈ cols -> float_or_zero cols row c = Ok (or_zero (cell row c)).
Proof.
  intros H. unfold float_or_zero, or_zero. rewrite (getitem_in _ _ _ H). cbn.
  by destruct (cell row c).
Qed.

Lemma int_or_zero_in cols row c :
  c ∈ cols -> int_or_zero cols row c = Ok (int_or_zero_of (cell row c)).
Proof.
  intros H. unfold int_or_zero, int_or_zero_of. rewrite (getitem_in _ _ _ H). cbn.
  by destruct (cell row c).
Qed.

(** Lines 258-262 in closed form: with a Distance column the cell is taken
    as it is, defined or not. *)
Lemma distance_val_eq cols row :
  distance_val cols row =
  Ok (if bool_decide ("Distance" ∈ cols) then cell row "Distance" else Fin 0).
Proof.
  unfold distance_val. case_bool_decide as H; [|reflexivity].
  rewrite (getitem_in _ _ _ H). cbn. by destruct (cell row "Distance").
Qed.

Lemma point_in cols x_bounds y_bounds row :
  "X" ∈ cols -> "Y" ∈ cols -> (forall c, c ∈ dynamics -> c ∈ cols) ->
  point cols (min x_bounds) (range (min x_bounds) (max x_bounds))
             (min y_bounds) (range (min y_bounds) (max y_bounds)) row =
  Ok (point_of cols x_bounds y_bounds row).
Proof.
  intros HX HY Hd. unfold point.
  rewrite (getitem_in _ _ _ HX), (getitem_in _ _ _ HY), distance_val_eq.
  rewrite !float_or_zero_in, !int_or_zero_in by (apply Hd; by repeat constructor).
  reflexivity.
Qed.

Lemma for_each_map {A B} (f : A -> result B) (g : A -> B) l :
  (forall a, a ∈ l -> f a = Ok (g a)) -> for_each f l = Ok (map g l).
Proof.
  induction l as [|a l IH]; intros H; [done|]. cbn.
  rewrite (H a) by (by left). cbn. rewrite IH; [done|].
  intros b Hb. apply H. by right.
Qed.

Lemma for_each_Forall2 {A B} (f : A -> result B) l bs :
  for_each f l = Ok bs -> Forall2 (fun a b => f a = Ok b) l bs.
Proof.
  revert bs. induction l as [|a l IH]; intros bs; cbn.
  - intros [= <-]. constructor.
  - destruct (f a) as [b|e] eqn:E; [|done]. cbn.
    destruct (for_each f l) as [bs'|e]; [|done]. cbn. intros [= <-].
    constructor; [done | by apply IH].
Qed.

Lemma values_in df c :
  c ∈ columns df -> values df c = Ok (map (fun r => cell r.2 c) (rows df)).
Proof. intros H. unfold values, has_column. by rewrite bool_decide_eq_true_2. Qed.

Lemma total_distance_of_ok df : exists d, total_distance_of df = Ok d.
Proof.
  unfold total_distance_of, has_column. case_bool_decide as H; [|by eexists].
  rewrite (values_in _ _ H). by eexists.
Qed.

(** *** Bounds of an axis *)


Lemma fold_fmax_spec vs : forall a,
  notna a = true -> Forall (fun v => notna v = true) vs ->
  exists m, fold_left fmax vs a = Fin m /\ Fin m ∈ a :: vs /\
            forall q, Fin q ∈ a :: vs -> (q <= m)%Q.
Proof.
  induction vs as [|v vs IH]; intros a Ha Hvs.
  - destruct a as [p|]; [|done]. exists p. split; [done|]. split; [by left|].
    intros q Hq. apply elem_of_cons in Hq as [[= ->]|Hq]; [apply Qle_refl|].
    by apply elem_of_nil in Hq.
  - apply Forall_cons in Hvs as [Hv Hvs].
    destruct a as [p|]; [|done]. destruct v as [q|]; [|done]. cbn [fold_left].
    assert (Hpq : exists r, fmax (Fin p) (Fin q) = Fin r /\ (r = p \/ r = q) /\
                            (p <= r)%Q /\ (q <= r)%Q).
    { unfold fmax. destruct (Qle_bool p q) eqn:E.
      - apply Qle_bool_iff in E. exists q. repeat split; [by right | done | lra].
      - exists p. repeat split; [by left | lra |].
        destruct (Qlt_le_dec q p) as [Hlt|Hle]; [lra|].
        apply Qle_bool_iff in Hle. congruence. }
    destruct Hpq as (r & Hr & Hsel & Hrp & Hrq). rewrite Hr.
    destruct (IH (Fin r) eq_refl Hvs) as (m & Hm & Hin & Hle).
    exists m. split; [done|].
    assert (Hmr : (r <= m)%Q) by (apply Hle; by left).
    split.
    + apply elem_of_cons in Hin as [Hin|Hin].
      * rewrite Hin. destruct Hsel as [->| ->]; [by left | right; by left].
      * right. by right.
    + intros x Hx. rewrite !elem_of_cons in Hx. destruct Hx as [[= ->]|[[= ->]|Hx]].
      * lra.
      * lra.
      * apply Hle. by right.
Qed.


(** *** The points of a stream *)

Lemma normalize_inv merged bx by_ pts :
  normalize merged = Ok (bx, by_, pts) ->
  "X" ∈ columns merged /\ "Y" ∈ columns merged /\
  np_min (map (fun r => cell r.2 "X") (rows merged)) = Ok (min bx) /\
  np_max (map (fun r => cell r.2 "X") (rows merged)) = Ok (max bx) /\
  np_min (map (fun r => cell r.2 "Y") (rows merged)) = Ok (min by_) /\
  np_max (map (fun r => cell r.2 "Y") (rows merged)) = Ok (max by_) /\
  telemetry_points merged (min bx) (range (min bx) (max bx))
                          (min by_) (range (min by_) (max by_)) = Ok pts.
Proof.
  unfold normalize, values, has_column. fold (cell).
  intros H.
  destruct (decide ("X" ∈ columns merged)) as [HX|HX];
    [rewrite (bool_decide_eq_true_2 _ HX) in H
    |rewrite (bool_decide_eq_false_2 _ HX) in H; by cbn in H].
  destruct (decide ("Y" ∈ columns merged)) as [HY|HY];
    [rewrite (bool_decide_eq_true_2 _ HY) in H
    |rewrite (bool_decide_eq_false_2 _ HY) in H; by cbn in H].
  cbn in H.
  change (fun r : Z * gmap string pyfloat => default NaN (r.2 !! "X"))
    with (fun r : Z * gmap string pyfloat => cell r.2 "X") in H.
  change (fun r : Z * gmap string pyfloat => default NaN (r.2 !! "Y"))
    with (fun r : Z * gmap string pyfloat => cell r.2 "Y") in H.
  destruct (np_min (map (fun r => cell r.2 "X") (rows merged)))
    as [x_min|] eqn:E1; [|done].
  destruct (np_max (map (fun r => cell r.2 "X") (rows merged)))
    as [x_max|] eqn:E2; [|done]. cbn in H.
  destruct (np_min (map (fun r => cell r.2 "Y") (rows merged)))
    as [y_min|] eqn:E3; [|done].
  destruct (np_max (map (fun r => cell r.2 "Y") (rows merged)))
    as [y_max|] eqn:E4; [|done]. cbn in H.
  destruct (telemetry_points _ _ _ _ _) as [ps|] eqn:E5; [|done]. cbn in H.
  injection H as <- <- <-. cbn. by repeat split.
Qed.










(** *** One point per sample *)

Lemma normalize_ok merged :
  "X" ∈ columns merged -> "Y" ∈ columns merged ->
  (forall c, c ∈ dynamics -> c ∈ columns merged) ->
  rows merged <> [] ->
  exists bx by_,
    normalize merged =
    Ok (bx, by_, map (fun r => point_of (columns merged) bx by_ r.2) (rows merged)).
Proof.
  intros HX HY Hd Hne. unfold normalize.
  rewrite (values_in _ _ HX), (values_in _ _ HY). cbn.
  destruct (rows merged) as [|r0 rs] eqn:Hrows; [done|]. cbn.
  set (x_min := fold_left fmin _ _). set (x_max := fold_left fmax _ _).
  set (y_min := fold_left fmin _ _). set (y_max := fold_left fmax _ _).
  exists {| min := x_min; max := x_max |}, {| min := y_min; max := y_max |}.
  unfold telemetry_points. rewrite Hrows.
  rewrite (for_each_map _
             (fun r => point_of (columns merged) {| min := x_min; max := x_max |}
                                {| min := y_min; max := y_max |} r.2)); [done|].
  intros r _.
  exact (point_in (columns merged) {| min := x_min; max := x_max |}
                  {| min := y_min; max := y_max |} r.2 HX HY Hd).
Qed.

Lemma response_ok sess driver lap merged :
  "X" ∈ columns merged -> "Y" ∈ columns merged ->
  (forall c, c ∈ dynamics -> c ∈ columns merged) ->
  rows merged <> [] ->
  exists resp,
    response sess driver lap merged = Ok resp /\
    LapDataResponse.driver resp = driver /\
    LapDataResponse.lap_number resp = LapNumber lap /\
    LapDataResponse.telemetry resp =
      map (fun r => point_of (columns merged)
                      (x_bounds (LapDataResponse.track_info resp))
                      (y_bounds (LapDataResponse.track_info resp)) r.2)
          (rows merged).
Proof.
  intros HX HY Hd Hne. unfold response.
  destruct (normalize_ok merged HX HY Hd Hne) as (bx & by_ & ->).
  destruct (total_distance_of_ok merged) as [d ->]. cbn.
  eexists. split; [reflexivity|]. by cbn.
Qed.

Lemma response_inv sess driver lap merged resp :
  response sess driver lap merged = Ok resp ->
  normalize merged =
  Ok (x_bounds (LapDataResponse.track_info resp),
      y_bounds (LapDataResponse.track_info resp),
      LapDataResponse.telemetry resp).
Proof.
  unfold response. destruct (normalize merged) as [[[bx by_] pts]|e]; [|done]. cbn.
  destruct (total_distance_of merged) as [d|e]; [|done]. cbn.
  by intros [= <-].
Qed.

Lemma response_points sess driver lap merged resp :
  response sess driver lap merged = Ok resp ->
  let bx := x_bounds (LapDataResponse.track_info resp) in
  let by_ := y_bounds (LapDataResponse.track_info resp) in
  Forall2 (fun r p =>
             point (columns merged) (min bx) (range (min bx) (max bx))
                   (min by_) (range (min by_) (max by_)) r.2 = Ok p)
          (rows merged) (LapDataResponse.telemetry resp).
Proof.
  intros H%response_inv%normalize_inv. cbn zeta.
  destruct H as (_ & _ & _ & _ & _ & _ & H). by apply for_each_Forall2 in H.
Qed.

(** C7. With a non-empty telemetry stream that has the X and Y columns,
    no position source is fetched and nothing is merged: the reconciled
    stream is the telemetry itself.  Every response then has one point per
    sample, the i-th point built from the i-th sample; and a response there
    is when the stream has the columns of the dynamics fields. *)
Theorem telemetry_with_position_is_kept
    fastf1 year round session driver lap_number t sess lap tel :
  reaches_telemetry fastf1 year round session driver lap_number t sess lap tel ->
  has_xy tel = true ->
  let run := get_lap_data fastf1 year round session driver lap_number in
  merged_data lap tel = ([], Ok tel) /\
  run.1 = t ++ [GetTelemetry] /\
  (forall resp, run.2 = Ok resp ->
     let bx := x_bounds (LapDataResponse.track_info resp) in
     let by_ := y_bounds (LapDataResponse.track_info resp) in
     length (LapDataResponse.telemetry resp) = len tel /\
     Forall2 (fun r p =>
                point (columns tel) (min bx) (range (min bx) (max bx))
                      (min by_) (range (min by_) (max by_)) r.2 = Ok p)
             (rows tel) (LapDataResponse.telemetry resp)) /\
  ((forall c, c ∈ dynamics -> c ∈ columns tel) ->
   exists resp,
     run.2 = Ok resp /\
     LapDataResponse.telemetry resp =
       map (fun r => point_of (columns tel)
                       (x_bounds (LapDataResponse.track_info resp))
                       (y_bounds (LapDataResponse.track_info resp)) r.2)
           (rows tel)).
Proof.
  intros Hreach Hxy run.
  assert (Hm : merged_data lap tel = ([], Ok tel)).
  { unfold merged_data. unfold has_xy in Hxy. by rewrite Hxy. }
  pose proof Hreach as (_ & _ & _ & _ & Hne).
  assert (Hrun : run = let '(t', r) := at_boundary (lift (response sess driver lap tel))
                       in (t ++ GetTelemetry :: t', r)).
  { subst run. rewrite (get_lap_data_reconcile _ _ _ _ _ _ _ _ _ _ Hreach).
    unfold reconcile, mbind, handler_bind. rewrite Hm, Hne.
    by destruct (lift (response sess driver lap tel)) as [t' r]. }
  unfold lift in Hrun.
  split; [done|]. split; [|split].
  - rewrite Hrun. destruct (response sess driver lap tel); [done|].
    by rewrite at_boundary_raise.
  - intros resp Hresp. rewrite Hrun in Hresp.
    destruct (response sess driver lap tel) as [resp'|e] eqn:E;
      [|by rewrite at_boundary_raise in Hresp].
    cbn in Hresp. injection Hresp as ->.
    pose proof (response_points _ _ _ _ _ E) as HF. cbn zeta in *.
    split; [|done]. symmetry. apply (Forall2_length _ _ _ HF).
  - intros Hd.
    unfold has_xy, has_column in Hxy.
    apply andb_true_iff in Hxy as [HX%bool_decide_eq_true HY%bool_decide_eq_true].
    assert (Hrows : rows tel <> []).
    { intros Hr. unfold empty in Hne. by rewrite Hr in Hne. }
    destruct (response_ok sess driver lap tel HX HY Hd Hrows)
      as (resp & Hresp & _ & _ & Htel).
    exists resp. rewrite Hrun, Hresp. by split.
Qed.

(** *** Defaults of the point fields *)

Lemma or_zero_defined v : notna (or_zero v) = true.
Proof. by destruct v. Qed.

(** The fields other than [x], [y] and [distance] are never undefined:
    an undefined cell gives 0.0 or 0, a defined one its value. *)
Lemma point_defaults cols a b c d row p :
  point cols a b c d row = Ok p ->
  (forall col, col ∈ dynamics -> col ∈ cols) /\
  TelemetryPoint.speed p = or_zero (cell row "Speed") /\
  TelemetryPoint.throttle p = or_zero (cell row "Throttle") /\
  TelemetryPoint.brake p = or_zero (cell row "Brake") /\
  TelemetryPoint.gear p = int_or_zero_of (cell row "nGear") /\
  TelemetryPoint.rpm p = or_zero (cell row "RPM") /\
  TelemetryPoint.drs p = int_or_zero_of (cell row "DRS") /\
  TelemetryPoint.time p = or_zero (cell row "Time") /\
  TelemetryPoint.distance p =
    (if bool_decide ("Distance" ∈ cols) then cell row "Distance" else Fin 0).
Proof.
  intros H. unfold point in H.
  destruct (getitem cols row "X") as [X|]; [|done]. cbn in H.
  destruct (getitem cols row "Y") as [Y|]; [|done]. cbn in H.
  rewrite distance_val_eq in H. cbn in H.
  assert (Hf : forall k v, float_or_zero cols row k = Ok v ->
                           k ∈ cols /\ v = or_zero (cell row k)).
  { intros k v Hk. destruct (decide (k ∈ cols)) as [Hin|Hout].
    - rewrite (float_or_zero_in _ _ _ Hin) in Hk. by injection Hk as <-.
    - unfold float_or_zero in Hk. by rewrite (getitem_out _ _ _ Hout) in Hk. }
  assert (Hi : forall k v, int_or_zero cols row k = Ok v ->
                           k ∈ cols /\ v = int_or_zero_of (cell row k)).
  { intros k v Hk. destruct (decide (k ∈ cols)) as [Hin|Hout].
    - rewrite (int_or_zero_in _ _ _ Hin) in Hk. by injection Hk as <-.
    - unfold int_or_zero in Hk. by rewrite (getitem_out _ _ _ Hout) in Hk. }
  destruct (float_or_zero cols row "Speed") as [v1|] eqn:E1; [|done]. cbn in H.
  destruct (float_or_zero cols row "Throttle") as [v2|] eqn:E2; [|done]. cbn in H.
  destruct (float_or_zero cols row "Brake") as [v3|] eqn:E3; [|done]. cbn in H.
  destruct (int_or_zero cols row "nGear") as [v4|] eqn:E4; [|done]. cbn in H.
  destruct (float_or_zero cols row "RPM") as [v5|] eqn:E5; [|done]. cbn in H.
  destruct (int_or_zero cols row "DRS") as [v6|] eqn:E6; [|done]. cbn in H.
  destruct (float_or_zero cols row "Time") as [v7|] eqn:E7; [|done]. cbn in H.
  injection H as <-. cbn.
  destruct (Hf _ _ E1) as [? ->], (Hf _ _ E2) as [? ->], (Hf _ _ E3) as [? ->],
    (Hi _ _ E4) as [? ->], (Hf _ _ E5) as [? ->], (Hi _ _ E6) as [? ->],
    (Hf _ _ E7) as [? ->].
  split; [|done].
  intros col Hcol. unfold dynamics in Hcol.
  repeat (apply elem_of_cons in Hcol as [->|Hcol]; [done|]).
  by apply elem_of_nil in Hcol.
Qed.

(** * Worked instances on the sample session *)

Lemma steady_loads year round session :
  f1_session Sample.steady year round session =
  ([SessionLoad full_load], Ok Sample.qualifying).
Proof. reflexivity. Qed.

Lemma sample_reaches driver lap_number lap tel :
  select_lap (pick_drivers driver (laps Sample.qualifying)) lap_number = Ok (Some lap) ->
  LapTime lap <> NaT ->
  get_telemetry lap = Returns tel ->
  empty tel = false ->
  reaches_telemetry Sample.steady 2023 1 "Q" driver lap_number
    [SessionLoad full_load] Sample.qualifying lap tel.
Proof. intros. by repeat split. Qed.

Lemma reaches_ver :
  reaches_telemetry Sample.steady 2023 1 "Q" "VER" None
    [SessionLoad full_load] Sample.qualifying Sample.ver_5 Sample.telemetry_xy.
Proof. by apply sample_reaches. Qed.

Lemma reaches_ham :
  reaches_telemetry Sample.steady 2023 1 "Q" "HAM" None
    [SessionLoad full_load] Sample.qualifying Sample.ham_3 Sample.telemetry_plain.
Proof. by apply sample_reaches. Qed.

Lemma reaches_lec :
  reaches_telemetry Sample.steady 2023 1 "Q" "LEC" None
    [SessionLoad full_load] Sample.qualifying Sample.lec_2 Sample.telemetry_plain.
Proof. by apply sample_reaches. Qed.

Lemma reaches_sai :
  reaches_telemetry Sample.steady 2023 1 "Q" "SAI" None
    [SessionLoad full_load] Sample.qualifying Sample.sai_4 Sample.telemetry_plain.
Proof. by apply sample_reaches. Qed.

Lemma reaches_nor :
  reaches_telemetry Sample.steady 2023 1 "Q" "NOR" None
    [SessionLoad full_load] Sample.qualifying Sample.nor_6 Sample.telemetry_plain.
Proof. by apply sample_reaches. Qed.

(** Both loads fail: one retry, then the 500 of the second error. *)
Lemma session_load_retry_policy_witness :
  get_lap_data Sample.down 2023 1 "Q" "VER" None =
  ([SessionLoad full_load; SessionLoad reduced_load],
   Raise (HTTPException 500 "connection refused")).
Proof.
  pose proof (session_load_retry_policy Sample.down 2023 1 "Q" "VER" None) as H.
  cbv beta zeta in H. destruct H as (_ & _ & _ & H & _).
  apply (H "HTTPSConnectionPool: Read TIMEOUT" "connection refused"); reflexivity.
Defined.

(** VER has the laps 1 and 5; lap 9 is asked for. *)
Lemma unmatched_lap_number_is_500_witness :
  get_lap_data Sample.steady 2023 1 "Q" "VER" (Some 9) =
  ([SessionLoad full_load],
   Raise (HTTPException 500 "single positional indexer is out-of-bounds")).
Proof.
  apply (unmatched_lap_number_is_500 Sample.steady 2023 1 "Q" "VER" 9
           [SessionLoad full_load] Sample.qualifying).
  - reflexivity.
  - lia.
  - vm_compute. discriminate.
  - intros l Hl. change (l ∈ [Sample.ver_1; Sample.ver_5]) in Hl.
    rewrite !elem_of_cons, elem_of_nil in Hl.
    destruct Hl as [->|[->|[]]]; vm_compute; discriminate.
Defined.

(** VER's lap 1 has no lap time: asked for by number it is a 404, and
    the fastest lap is lap 5. *)
Lemma null_lap_time_never_served_witness :
  pick_fastest [Sample.ver_1; Sample.ver_5] = Some Sample.ver_5 /\
  LapTime Sample.ver_5 <> NaT /\
  get_lap_data Sample.steady 2023 1 "Q" "VER" (Some 1) =
  ([SessionLoad full_load],
   Raise (HTTPException 404 "Selected lap has no valid lap time")).
Proof.
  destruct null_lap_time_never_served as (Hfast & _ & Hnull).
  split; [reflexivity|]. split.
  - apply (Hfast [Sample.ver_1; Sample.ver_5] Sample.ver_5). reflexivity.
  - apply (Hnull Sample.steady 2023 1 "Q" "VER" (Some 1) [SessionLoad full_load]
             Sample.qualifying Sample.ver_1); reflexivity.
Defined.

(** NOR: no stream has a position. *)
Lemma position_source_priority_witness :
  get_lap_data Sample.steady 2023 1 "Q" "NOR" None =
  ([SessionLoad full_load; GetTelemetry; GetPosData; GetCarData],
   Raise (HTTPException 404 no_position_detail)).
Proof.
  destruct (position_source_priority Sample.steady 2023 1 "Q" "NOR" None
              [SessionLoad full_load] Sample.qualifying Sample.nor_6
              Sample.telemetry_plain reaches_nor eq_refl) as (_ & _ & _ & H).
  apply (H Sample.telemetry_plain); [reflexivity | reflexivity |].
  intros c Hc. injection Hc as <-. reflexivity.
Defined.

(** SAI: the position stream cannot be fetched and the car data has no
    position, yet the 404 is not the one that suggests another session. *)
Lemma position_fetch_failure_counterexample :
  ~ (forall fastf1 year round session driver lap_number t sess lap tel,
       reaches_telemetry fastf1 year round session driver lap_number t sess lap tel ->
       has_xy tel = false ->
       neither_source_yields lap ->
       (get_lap_data fastf1 year round session driver lap_number).2 =
       Raise (HTTPException 404 no_position_detail)).
Proof.
  intros H.
  specialize (H Sample.steady 2023 1 "Q" "SAI" None _ _ _ _ reaches_sai eq_refl).
  assert (Hn : neither_source_yields Sample.sai_4).
  { split; [intros p Hp; discriminate Hp|]. intros c Hc. injection Hc as <-. reflexivity. }
  specialize (H Hn). vm_compute in H. discriminate H.
Qed.



(** LEC: the position stream has X and Y only. *)
Lemma position_source_without_z_is_500_witness :
  get_lap_data Sample.steady 2023 1 "Q" "LEC" None =
  ([SessionLoad full_load; GetTelemetry; GetPosData],
   Raise (HTTPException 500 (dquote +:+ "['Z'] not in index" +:+ dquote))).
Proof.
  destruct (position_source_without_z_is_500 Sample.steady 2023 1 "Q" "LEC" None
              [SessionLoad full_load] Sample.qualifying Sample.lec_2
              Sample.telemetry_plain [GetPosData] Sample.position_xy
              reaches_lec eq_refl eq_refl) as (_ & _ & H); [|exact H].
  change ("Z" ∉ ["X"; "Y"]). apply (bool_decide_unpack ("Z" ∉ ["X"; "Y"])).
  vm_compute. exact I.
Defined.

(** VER's fastest lap: three samples, three points. *)
Lemma telemetry_with_position_is_kept_witness :
  exists resp,
    (get_lap_data Sample.steady 2023 1 "Q" "VER" None).2 = Ok resp /\
    length (LapDataResponse.telemetry resp) = 3%nat.
Proof.
  destruct (telemetry_with_position_is_kept Sample.steady 2023 1 "Q" "VER" None
              [SessionLoad full_load] Sample.qualifying Sample.ver_5
              Sample.telemetry_xy reaches_ver eq_refl) as (_ & _ & Hall & Hex).
  destruct Hex as (resp & Hresp & _).
  { intros c Hc. change (c ∈ dynamics ++ ["X"; "Y"; "Distance"]).
    apply elem_of_app. by left. }
  exists resp. split; [exact Hresp|]. apply (Hall resp Hresp).
Defined.



(** C6 (the code as it is).  VER's fastest lap has a Distance column and a
    second sample whose Distance is undefined: the point of that sample has
    an undefined distance, not 0.0. *)
Theorem undefined_distance_reaches_response :
  exists resp,
    get_lap_data Sample.steady 2023 1 "Q" "VER" None =
      ([SessionLoad full_load; GetTelemetry], Ok resp) /\
    map (fun r => cell r.2 "Distance") (rows Sample.telemetry_xy) =
      [Fin 0; NaN; Fin 14] /\
    map TelemetryPoint.distance (LapDataResponse.telemetry resp) =
      [Fin 0; NaN; Fin 14].
Proof.
  eexists. split; [vm_compute; reflexivity|]. split; vm_compute; reflexivity.
Qed.

(** * Further properties of the handlers *)

(** ** What a request can raise, and what it calls *)

Lemma raises_plain_bind {A B} (m : result A) (f : A -> result B) :
  raises_plain m -> (forall a, raises_plain (f a)) -> raises_plain (m ≫= f).
Proof.
  intros Hm Hf e. destruct m as [a|e']; cbn; [apply Hf|].
  intros [= <-]. by apply Hm.
Qed.

Lemma raises_plain_ok {A} (a : A) : raises_plain (Ok a).
Proof. intros e H. discriminate H. Qed.

Lemma raises_plain_py {A} kind msg : raises_plain (A := A) (Raise (PyError kind msg)).
Proof. intros e [= <-]. eauto. Qed.

Lemma getitem_plain cols row c : raises_plain (getitem cols row c).
Proof.
  unfold getitem. destruct (bool_decide _);
    [apply raises_plain_ok | apply raises_plain_py].
Qed.

Lemma float_or_zero_plain cols row c : raises_plain (float_or_zero cols row c).
Proof.
  apply raises_plain_bind; [apply getitem_plain|]. intros v.
  destruct (notna v); [|apply raises_plain_ok].
  apply raises_plain_bind; [apply getitem_plain|]. intros w. apply raises_plain_ok.
Qed.

Lemma int_or_zero_plain cols row c : raises_plain (int_or_zero cols row c).
Proof.
  apply raises_plain_bind; [apply getitem_plain|]. intros v.
  destruct (notna v); [|apply raises_plain_ok].
  apply raises_plain_bind; [apply getitem_plain|]. intros [q|];
    [apply raises_plain_ok | apply raises_plain_py].
Qed.

Lemma point_plain cols a b c d row : raises_plain (point cols a b c d row).
Proof.
  unfold point. rewrite distance_val_eq.
  repeat first
    [ apply raises_plain_ok
    | apply raises_plain_bind;
      [first [apply getitem_plain | apply float_or_zero_plain
             | apply int_or_zero_plain | apply raises_plain_ok]
      | intros ?] ].
Qed.

Lemma for_each_plain {A B} (f : A -> result B) l :
  (forall a, raises_plain (f a)) -> raises_plain (for_each f l).
Proof.
  intros Hf. induction l as [|a l IH]; [apply raises_plain_ok|]. cbn.
  apply raises_plain_bind; [apply Hf|]. intros b.
  apply raises_plain_bind; [apply IH|]. intros bs. apply raises_plain_ok.
Qed.

Lemma values_plain df c : raises_plain (values df c).
Proof.
  unfold values. destruct (has_column c df);
    [apply raises_plain_ok | apply raises_plain_py].
Qed.

Lemma np_min_plain a : raises_plain (np_min a).
Proof. destruct a; [apply raises_plain_py | apply raises_plain_ok]. Qed.

Lemma np_max_plain a : raises_plain (np_max a).
Proof. destruct a; [apply raises_plain_py | apply raises_plain_ok]. Qed.

Lemma normalize_plain merged : raises_plain (normalize merged).
Proof.
  unfold normalize.
  repeat first
    [ apply raises_plain_ok
    | apply raises_plain_bind;
      [first [apply values_plain | apply np_min_plain | apply np_max_plain
             | apply for_each_plain; intros ?; apply point_plain]
      | intros ?] ].
Qed.

Lemma response_plain sess driver lap merged :
  raises_plain (response sess driver lap merged).
Proof.
  unfold response. apply raises_plain_bind; [apply normalize_plain|].
  intros [[bx by_] pts]. destruct (total_distance_of_ok merged) as [d ->].
  apply raises_plain_ok.
Qed.

Lemma getitem_columns_plain df cols : raises_plain (getitem_columns df cols).
Proof.
  unfold getitem_columns. destruct (filter _ cols);
    [apply raises_plain_ok | apply raises_plain_py].
Qed.

Lemma pos_data_raises lap t e :
  pos_data lap = (t, Raise e) -> exists detail, e = HTTPException 404 detail.
Proof.
  destruct (get_pos_data lap) as [p|m] eqn:E.
  - destruct (yields_xy p) eqn:Hy.
    + by rewrite (pos_data_dedicated _ _ E Hy).
    + destruct (get_car_data lap) as [c|m] eqn:Ec.
      * destruct (yields_xy c) eqn:Hyc.
        -- by rewrite (pos_data_car _ _ _ E Hy Ec Hyc).
        -- rewrite (pos_data_exhausted _ _ E Hy); [|congruence].
           intros [= <- <-]. eauto.
      * rewrite (pos_data_exhausted _ _ E Hy); [|congruence].
        intros [= <- <-]. eauto.
  - rewrite (pos_data_fetch_fails _ _ E). intros [= <- <-]. eauto.
Qed.

Lemma merged_data_raises lap tel : raises_404_or_plain (merged_data lap tel).
Proof.
  intros e. unfold merged_data.
  destruct (has_column "X" tel && has_column "Y" tel); [done|].
  unfold mbind, handler_bind, lift, mret, handler_ret.
  destruct (pos_data lap) as [t [pos|e']] eqn:E.
  - destruct (getitem_columns pos (pos_columns tel pos)) as [proj|e'] eqn:Ep;
      cbn; [intros H; discriminate H|].
    intros [= <-]. right. by apply (getitem_columns_plain _ _ _ Ep).
  - cbn. intros [= <-]. left. by apply (pos_data_raises _ _ _ E).
Qed.

Lemma reconcile_raises sess driver lap tel :
  raises_404_or_plain (reconcile sess driver lap tel).
Proof.
  intros e. unfold reconcile, mbind, handler_bind, raise, lift.
  destruct (merged_data lap tel) as [t [m|e']] eqn:E; cbn.
  - destruct (empty m); cbn.
    + intros [= <-]. left. eauto.
    + intros H. right. by apply (response_plain sess driver lap m).
  - intros [= <-]. apply (merged_data_raises lap tel). by rewrite E.
Qed.

Lemma lap_data_raises sess driver lap_number :
  raises_404_or_plain (lap_data sess driver lap_number).
Proof.
  intros e. unfold lap_data, mbind, handler_bind, raise, lift, invoke.
  destruct (is_nil _); cbn; [intros [= <-]; left; eauto|].
  destruct (select_lap _ _) as [sel|e'] eqn:Es; cbn.
  2:{ intros [= <-]. right. unfold select_lap in Es.
      destruct (truthy lap_number); [|done].
      destruct (filter _ _); cbn in Es; [|done]. injection Es as <-. eauto. }
  destruct sel as [lap|]; cbn; [|intros [= <-]; right; eauto].
  destruct (isna (LapTime lap)); cbn; [intros [= <-]; left; eauto|].
  destruct (get_telemetry lap) as [tel|m]; cbn; [|intros [= <-]; right; eauto].
  destruct (empty tel); cbn; [intros [= <-]; left; eauto|].
  pose proof (reconcile_raises sess driver lap tel e) as H.
  destruct (reconcile sess driver lap tel) as [t r]. exact H.
Qed.

Lemma f1_session_raises fastf1 year round session t e :
  f1_session fastf1 year round session = (t, Raise e) ->
  exists msg, e = PyError LibraryError msg.
Proof.
  destruct (fastf1 year round session full_load) as [sess|msg] eqn:E1.
  - by rewrite (f1_session_first _ _ _ _ _ E1).
  - destruct (contains "ergast" (lower msg) || contains "timeout" (lower msg)) eqn:Et.
    + rewrite (f1_session_retry _ _ _ _ _ E1 Et).
      destruct (fastf1 year round session reduced_load) as [sess|msg2]; cbn; [done|].
      intros [= <- <-]. eauto.
    + rewrite (f1_session_fatal _ _ _ _ _ E1 Et). intros [= <- <-]. eauto.
Qed.

(** A request that fails, fails with an HTTPException whose status is 404
    or 500; when the session cannot be loaded it is a 500. *)
Theorem get_lap_data_fails_with_404_or_500
    fastf1 year round session driver lap_number t e :
  get_lap_data fastf1 year round session driver lap_number = (t, Raise e) ->
  exists detail, e = HTTPException 404 detail \/ e = HTTPException 500 detail.
Proof.
  destruct (f1_session fastf1 year round session) as [t0 [sess|e0]] eqn:E.
  - rewrite (get_lap_data_loaded _ _ _ _ _ _ _ _ E).
    pose proof (lap_data_raises sess driver lap_number) as Hl.
    destruct (lap_data sess driver lap_number) as [t1 [resp|e1]]; [done|].
    rewrite at_boundary_raise. intros [= <- <-].
    destruct (Hl e1 eq_refl) as [[d ->]|(k & m & ->)]; cbn; eauto.
  - rewrite (get_lap_data_not_loaded _ _ _ _ _ _ _ _ E). intros [= <- <-].
    destruct (f1_session_raises _ _ _ _ _ _ E) as [msg ->]. cbn. eauto.
Qed.

Lemma f1_session_calls fastf1 year round session :
  (f1_session fastf1 year round session).1 = [SessionLoad full_load] \/
  (f1_session fastf1 year round session).1 =
    [SessionLoad full_load; SessionLoad reduced_load].
Proof.
  destruct (fastf1 year round session full_load) as [sess|msg] eqn:E1.
  - left. by rewrite (f1_session_first _ _ _ _ _ E1).
  - destruct (contains "ergast" (lower msg) || contains "timeout" (lower msg)) eqn:Et.
    + right. by rewrite (f1_session_retry _ _ _ _ _ E1 Et).
    + left. by rewrite (f1_session_fatal _ _ _ _ _ E1 Et).
Qed.

Lemma lap_data_fetches sess driver lap_number :
  (lap_data sess driver lap_number).1 `prefix_of` [GetTelemetry; GetPosData; GetCarData].
Proof.
  destruct (lap_data_calls sess driver lap_number) as [->|(lap & tel & ->)];
    [apply prefix_nil|].
  destruct (empty tel); [by exists [GetPosData; GetCarData]|].
  rewrite merged_data_calls.
  destruct (has_xy tel); [by exists [GetPosData; GetCarData]|].
  destruct (pos_data_calls lap) as [->| ->]; [by exists [GetCarData] | by exists []].
Qed.

(** The calls of a request, in order: the session load, once or twice,
    then at most the lap's telemetry, its position stream and its car data,
    each at most once and none without the ones before it. *)
Theorem get_lap_data_calls_in_order fastf1 year round session driver lap_number :
  exists loads fetches,
    (get_lap_data fastf1 year round session driver lap_number).1 =
      map SessionLoad loads ++ fetches /\
    (loads = [full_load] \/ loads = [full_load; reduced_load]) /\
    fetches `prefix_of` [GetTelemetry; GetPosData; GetCarData].
Proof.
  pose proof (f1_session_calls fastf1 year round session) as Hloads.
  destruct (f1_session fastf1 year round session) as [t0 [sess|e0]] eqn:E.
  - rewrite (get_lap_data_loaded _ _ _ _ _ _ _ _ E).
    pose proof (at_boundary_calls (lap_data sess driver lap_number)) as Hc.
    pose proof (lap_data_fetches sess driver lap_number) as Hp.
    destruct (at_boundary (lap_data sess driver lap_number)) as [t1 r].
    cbn in Hc. subst t1. cbn in Hloads |- *.
    destruct Hloads as [->| ->];
      [exists [full_load] | exists [full_load; reduced_load]];
      eexists; (split; [reflexivity|]); (split; [auto | exact Hp]).
  - rewrite (get_lap_data_not_loaded _ _ _ _ _ _ _ _ E). cbn in Hloads |- *.
    destruct Hloads as [->| ->];
      [exists [full_load] | exists [full_load; reduced_load]];
      exists []; (split; [reflexivity|]); (split; [auto | apply prefix_nil]).
Qed.

(** ** The not-found paths *)

(** A driver without a lap in the loaded session: the 404 that names the
    driver, whatever the lap number, and no lap is asked for anything. *)
Theorem driver_without_laps_is_404
    fastf1 year round session driver lap_number t sess :
  f1_session fastf1 year round session = (t, Ok sess) ->
  (forall l, l ∈ laps sess -> Driver l <> driver) ->
  get_lap_data fastf1 year round session driver lap_number =
  (t, Raise (HTTPException 404 ("No laps found for driver " +:+ driver))).
Proof.
  intros Hload Hno.
  rewrite (get_lap_data_loaded _ _ _ _ _ _ _ _ Hload).
  assert (Hnil : pick_drivers driver (laps sess) = []).
  { unfold pick_drivers. destruct (filter _ (laps sess)) as [|l rest] eqn:Hf; [done|].
    assert (Hl : l ∈ filter (fun l => Driver l = driver) (laps sess))
      by (rewrite Hf; by left).
    apply list_elem_of_filter in Hl as [Hd Hin]. by destruct (Hno l Hin). }
  unfold lap_data. rewrite Hnil. cbn. by rewrite app_nil_r.
Qed.

(** The telemetry of the selected lap: when fetching it raises, a 500 with
    the text; when it is empty, the 404 for missing telemetry.  In both
    cases no position source is fetched. *)
Theorem telemetry_unavailable
    fastf1 year round session driver lap_number t sess lap :
  f1_session fastf1 year round session = (t, Ok sess) ->
  select_lap (pick_drivers driver (laps sess)) lap_number = Ok (Some lap) ->
  LapTime lap <> NaT ->
  let run := get_lap_data fastf1 year round session driver lap_number in
  (forall msg, get_telemetry lap = Raises msg ->
     run = (t ++ [GetTelemetry], Raise (HTTPException 500 msg))) /\
  (forall tel, get_telemetry lap = Returns tel -> empty tel = true ->
     run = (t ++ [GetTelemetry],
            Raise (HTTPException 404 "No telemetry data available for this lap"))).
Proof.
  intros Hload Hsel Htime run. subst run.
  rewrite (get_lap_data_loaded _ _ _ _ _ _ _ _ Hload).
  unfold lap_data. rewrite (select_lap_nonempty _ _ _ Hsel), Hsel. cbn.
  unfold isna. destruct (Z.eqb_spec (LapTime lap) NaT) as [|_]; [done|].
  unfold invoke. split.
  - intros msg ->. cbn. by rewrite ?app_nil_r.
  - intros tel -> He. cbn. rewrite He. cbn. by rewrite ?app_nil_r.
Qed.

Lemma merge_rows_nil (left right : DataFrame) :
  (forall i, i ∈ index left -> i ∉ index right) -> rows (merge left right) = [].
Proof.
  intros H. destruct (rows (merge left right)) as [|[i row] rest] eqn:E; [done|].
  assert (Hin : i ∈ index (merge left right)).
  { apply elem_of_index. exists row. rewrite E. by left. }
  apply merge_index in Hin as [Hl Hr]. by destruct (H i Hl).
Qed.

Lemma projection_with_z telemetry pos :
  "X" ∈ columns pos -> "Y" ∈ columns pos -> "Z" ∈ columns pos ->
  exists projected,
    getitem_columns pos (pos_columns telemetry pos) = Ok projected.
Proof.
  intros HX HY HZ. unfold getitem_columns.
  assert (Hf : filter (fun c => c ∉ columns pos) (pos_columns telemetry pos) = []).
  { destruct (pos_columns_shape telemetry pos) as [[-> _]|(-> & HD & _)];
      repeat (rewrite filter_cons; case_decide; [tauto|]);
      by rewrite filter_nil. }
  rewrite Hf. by eexists.
Qed.

(** Telemetry without position and a position source with X, Y and Z: the
    request ends with the 404 "Could not merge telemetry with position
    data" exactly when the two streams have no index label in common. *)
Theorem disjoint_streams_are_404
    fastf1 year round session driver lap_number t sess lap tel t1 pos :
  reaches_telemetry fastf1 year round session driver lap_number t sess lap tel ->
  has_xy tel = false ->
  pos_data lap = (t1, Ok pos) ->
  "Z" ∈ columns pos ->
  (forall i, i ∈ index tel -> i ∉ index pos) <->
  get_lap_data fastf1 year round session driver lap_number =
  (t ++ GetTelemetry :: t1,
   Raise (HTTPException 404 "Could not merge telemetry with position data")).
Proof.
  intros Hreach Hx Hpos HZ.
  destruct (yields_xy_columns _ (pos_data_ok _ _ _ Hpos)) as (HX & HY & _).
  destruct (projection_with_z tel pos HX HY HZ) as [proj Hproj].
  destruct (getitem_columns_ok _ _ _ Hproj) as (Hcols & Hidx & _ & _).
  assert (Hm : merged_data lap tel = (t1, Ok (merge tel proj))).
  { unfold merged_data. unfold has_xy in Hx. rewrite Hx.
    unfold mbind, handler_bind, lift, mret, handler_ret. rewrite Hpos, Hproj.
    by rewrite !app_nil_r. }
  rewrite (get_lap_data_reconcile _ _ _ _ _ _ _ _ _ _ Hreach).
  unfold reconcile, mbind, handler_bind. rewrite Hm. split.
  - intros Hdis.
    assert (He : empty (merge tel proj) = true).
    { unfold empty. rewrite merge_rows_nil; [done|]. by rewrite Hidx. }
    rewrite He. cbn. by rewrite !app_nil_r.
  - intros Hrun i Hi Hp.
    assert (He : empty (merge tel proj) = false).
    { assert (Hin : i ∈ index (merge tel proj))
        by (apply merge_index; by rewrite Hidx).
      apply elem_of_index in Hin as [row Hrow]. unfold empty.
      destruct (rows (merge tel proj)); [by apply elem_of_nil in Hrow|].
      cbn [merge columns]. rewrite Hcols.
      destruct (pos_columns_shape tel pos) as [[-> _]|(-> & _)];
        by destruct (map _ (columns tel)). }
    rewrite He in Hrun. unfold lift in Hrun.
    pose proof (response_plain sess driver lap (merge tel proj)) as Hplain.
    destruct (response sess driver lap (merge tel proj)) as [resp|e]; [done|].
    destruct (Hplain e eq_refl) as (k & m & ->).
    rewrite at_boundary_raise in Hrun. cbn in Hrun. congruence.
Qed.

(** A transient first failure followed by a successful reduced load: the
    request goes on as a request whose first load succeeds, with the one
    more load in front. *)
Theorem successful_retry_resumes
    fastf1 fastf1' year round session driver lap_number msg sess :
  fastf1 year round session full_load = Raises msg ->
  contains "ergast" (lower msg) || contains "timeout" (lower msg) = true ->
  fastf1 year round session reduced_load = Returns sess ->
  fastf1' year round session full_load = Returns sess ->
  let run := get_lap_data fastf1 year round session driver lap_number in
  let run' := get_lap_data fastf1' year round session driver lap_number in
  run.2 = run'.2 /\
  exists fetches,
    run'.1 = SessionLoad full_load :: fetches /\
    run.1 = SessionLoad full_load :: SessionLoad reduced_load :: fetches.
Proof.
  intros E1 Et E2 E1' run run'. subst run run'.
  pose proof (f1_session_retry _ _ _ _ _ E1 Et) as Hr. rewrite E2 in Hr. cbn in Hr.
  rewrite (get_lap_data_loaded _ _ _ _ driver lap_number _ _ Hr).
  rewrite (get_lap_data_loaded _ _ _ _ driver lap_number _ _
             (f1_session_first _ _ _ _ _ E1')).
  destruct (at_boundary (lap_data sess driver lap_number)) as [t1 r]. cbn.
  split; [done|]. by exists t1.
Qed.

(** ** What a response says *)

Lemma lap_data_ok sess driver lap_number t resp :
  lap_data sess driver lap_number = (t, Ok resp) ->
  exists lap tel merged,
    select_lap (pick_drivers driver (laps sess)) lap_number = Ok (Some lap) /\
    LapTime lap <> NaT /\
    get_telemetry lap = Returns tel /\ empty tel = false /\
    (merged_data lap tel).2 = Ok merged /\ empty merged = false /\
    response sess driver lap merged = Ok resp.
Proof.
  unfold lap_data, mbind, handler_bind, raise, lift, invoke.
  destruct (is_nil _); [done|].
  destruct (select_lap _ _) as [[lap|]|e] eqn:Es; [|done|done]. cbn.
  unfold isna. destruct (Z.eqb_spec (LapTime lap) NaT) as [|Hne]; [done|].
  destruct (get_telemetry lap) as [tel|m] eqn:Et; [|done]. cbn.
  destruct (empty tel) eqn:He; [done|].
  unfold reconcile, mbind, handler_bind, raise, lift.
  destruct (merged_data lap tel) as [t1 [merged|e]] eqn:Em; [|done].
  destruct (empty merged) eqn:He'; [done|].
  destruct (response sess driver lap merged) as [resp'|e] eqn:Er; [|done].
  intros [= <- <-]. exists lap, tel, merged. by rewrite Em.
Qed.

Lemma get_lap_data_ok fastf1 year round session driver lap_number t resp :
  get_lap_data fastf1 year round session driver lap_number = (t, Ok resp) ->
  exists t0 t1 sess,
    f1_session fastf1 year round session = (t0, Ok sess) /\
    lap_data sess driver lap_number = (t1, Ok resp) /\ t = t0 ++ t1.
Proof.
  destruct (f1_session fastf1 year round session) as [t0 [sess|e0]] eqn:E.
  - rewrite (get_lap_data_loaded _ _ _ _ _ _ _ _ E).
    destruct (lap_data sess driver lap_number) as [t1 [r|e1]] eqn:El;
      [|by rewrite at_boundary_raise].
    cbn. intros [= <- <-]. by exists t0, t1, sess.
  - by rewrite (get_lap_data_not_loaded _ _ _ _ _ _ _ _ E).
Qed.

Lemma response_fields sess driver lap merged resp :
  response sess driver lap merged = Ok resp ->
  LapDataResponse.driver resp = driver /\
  LapDataResponse.lap_number resp = LapNumber lap /\
  LapDataResponse.lap_time resp = LapTime lap /\
  name (LapDataResponse.track_info resp) = EventName sess /\
  location (LapDataResponse.track_info resp) = Location sess /\
  country (LapDataResponse.track_info resp) = Country sess /\
  total_distance_of merged = Ok (total_distance (LapDataResponse.track_info resp)).
Proof.
  unfold response. destruct (normalize merged) as [[[bx by_] pts]|e]; [|done]. cbn.
  destruct (total_distance_of merged) as [d|e]; [|done]. cbn.
  by intros [= <-].
Qed.

Lemma select_lap_ok driver_laps lap_number lap :
  select_lap driver_laps lap_number = Ok (Some lap) ->
  lap ∈ driver_laps /\
  (truthy lap_number = true ->
     head (filter (fun l => Some (LapNumber l) = lap_number) driver_laps) = Some lap /\
     Some (LapNumber lap) = lap_number) /\
  (truthy lap_number = false -> pick_fastest driver_laps = Some lap).
Proof.
  unfold select_lap. destruct (truthy lap_number).
  - destruct (filter _ driver_laps) as [|l rest] eqn:Hf; [done|]. cbn.
    intros [= <-].
    assert (Hl : l ∈ filter (fun l => Some (LapNumber l) = lap_number) driver_laps)
      by (rewrite Hf; by left).
    apply list_elem_of_filter in Hl as [Hn Hin]. by repeat split.
  - intros [= Hp]. destruct (pick_fastest_spec _ _ Hp) as (Hin & _).
    by repeat split.
Qed.

(** C9. The presence of [lap_number] is its truthiness.  A request with
    [lap_number=0] runs as the request without [lap_number]; and when the
    session loads and the driver has a fastest lap, lap 0 is not looked
    up: the selection is that fastest lap, the request goes on with its
    telemetry, every response carries its number and lap time, and there
    is a response when its telemetry has the position and the dynamics
    columns. *)
Theorem lap_number_zero_is_absent fastf1 year round session driver :
  get_lap_data fastf1 year round session driver (Some 0) =
  get_lap_data fastf1 year round session driver None /\
  forall t sess fastest,
    f1_session fastf1 year round session = (t, Ok sess) ->
    pick_fastest (pick_drivers driver (laps sess)) = Some fastest ->
    let run := get_lap_data fastf1 year round session driver (Some 0) in
    select_lap (pick_drivers driver (laps sess)) (Some 0) = Ok (Some fastest) /\
    (forall tel, get_telemetry fastest = Returns tel -> empty tel = false ->
       run = let '(t', r) := at_boundary (reconcile sess driver fastest tel) in
             (t ++ GetTelemetry :: t', r)) /\
    (forall resp, run.2 = Ok resp ->
       LapDataResponse.lap_number resp = LapNumber fastest /\
       LapDataResponse.lap_time resp = LapTime fastest) /\
    (forall tel, get_telemetry fastest = Returns tel -> empty tel = false ->
       has_xy tel = true -> (forall c, c ∈ dynamics -> c ∈ columns tel) ->
       exists resp,
         run = (t ++ [GetTelemetry], Ok resp) /\
         LapDataResponse.lap_number resp = LapNumber fastest /\
         LapDataResponse.lap_time resp = LapTime fastest).
Proof.
  split; [reflexivity|].
  intros t sess fastest Hload Hfast run.
  assert (Hsel : select_lap (pick_drivers driver (laps sess)) (Some 0) =
                 Ok (Some fastest)).
  { change (Ok (pick_fastest (pick_drivers driver (laps sess))) = Ok (Some fastest)).
    by rewrite Hfast. }
  destruct (pick_fastest_spec _ _ Hfast) as (_ & Htime & _).
  assert (Hreach : forall tel, get_telemetry fastest = Returns tel ->
            empty tel = false ->
            reaches_telemetry fastf1 year round session driver (Some 0)
              t sess fastest tel) by (intros; by repeat split).
  split; [done|]. split; [|split].
  - intros tel Htel Hne. subst run.
    by apply get_lap_data_reconcile, Hreach.
  - intros resp Hresp. subst run.
    destruct (get_lap_data fastf1 year round session driver (Some 0))
      as [t' r] eqn:Erun. cbn in Hresp. subst r.
    apply get_lap_data_ok in Erun as (t0 & t1 & sess' & Hload' & Hlap & _).
    rewrite Hload in Hload'. injection Hload' as <- <-.
    destruct (lap_data_ok _ _ _ _ _ Hlap)
      as (lap & tel & merged & Hsel' & _ & _ & _ & _ & _ & Hr).
    rewrite Hsel in Hsel'. injection Hsel' as <-.
    by destruct (response_fields _ _ _ _ _ Hr) as (_ & Hn & Ht & _).
  - intros tel Htel Hne Hxy Hd. subst run.
    rewrite (get_lap_data_reconcile _ _ _ _ _ _ _ _ _ _ (Hreach tel Htel Hne)).
    assert (Hm : merged_data fastest tel = ([], Ok tel)).
    { unfold merged_data. unfold has_xy in Hxy. by rewrite Hxy. }
    unfold has_xy, has_column in Hxy.
    apply andb_true_iff in Hxy as [HX%bool_decide_eq_true HY%bool_decide_eq_true].
    assert (Hrows : rows tel <> []).
    { intros Hr. unfold empty in Hne. by rewrite Hr in Hne. }
    destruct (response_ok sess driver fastest tel HX HY Hd Hrows)
      as (resp & Hresp & _ & Hn & _).
    destruct (response_fields _ _ _ _ _ Hresp) as (_ & _ & Ht & _).
    exists resp. unfold reconcile, mbind, handler_bind. rewrite Hm, Hne.
    unfold lift. rewrite Hresp. by cbn.
Qed.

(** A response is about one lap of the loaded session that belongs to the
    requested driver and has a lap time: it carries that lap's number and
    lap time and the driver as requested.  With a non-zero lap number the
    lap is the driver's first lap of that number; otherwise no timed lap
    of the driver is faster. *)
Theorem response_identifies_lap
    fastf1 year round session driver lap_number t resp :
  get_lap_data fastf1 year round session driver lap_number = (t, Ok resp) ->
  exists sess lap,
    (f1_session fastf1 year round session).2 = Ok sess /\
    lap ∈ laps sess /\ Driver lap = driver /\ LapTime lap <> NaT /\
    LapDataResponse.driver resp = driver /\
    LapDataResponse.lap_number resp = LapNumber lap /\
    LapDataResponse.lap_time resp = LapTime lap /\
    name (LapDataResponse.track_info resp) = EventName sess /\
    (truthy lap_number = true ->
       lap_number = Some (LapDataResponse.lap_number resp) /\
       head (filter (fun l => Some (LapNumber l) = lap_number)
                    (pick_drivers driver (laps sess))) = Some lap) /\
    (truthy lap_number = false ->
       forall l, l ∈ laps sess -> Driver l = driver -> LapTime l <> NaT ->
                 LapDataResponse.lap_time resp <= LapTime l).
Proof.
  intros (t0 & t1 & sess & Hload & Hlap & _)%get_lap_data_ok.
  destruct (lap_data_ok _ _ _ _ _ Hlap)
    as (lap & tel & merged & Hsel & Htime & _ & _ & _ & _ & Hresp).
  destruct (response_fields _ _ _ _ _ Hresp) as (Hd & Hn & Ht & Hname & _).
  destruct (select_lap_ok _ _ _ Hsel) as (Hin & Hnum & Hfast).
  apply (list_elem_of_filter (fun l => Driver l = driver)) in Hin as [Hdrv Hin].
  exists sess, lap. rewrite Hload, Hd, Hn, Ht.
  do 8 (split; [done|]). split.
  - intros Htr. destruct (Hnum Htr) as [Hhead Heq]. by split.
  - intros Htr l Hl Hdl Htl.
    destruct (pick_fastest_spec _ _ (Hfast Htr)) as (_ & _ & Hmin).
    apply Hmin; [|done].
    by apply (list_elem_of_filter (fun l => Driver l = driver)).
Qed.

(** The total distance of the track information: 0.0 without a Distance
    column; with one, the greatest of the defined distances, undefined
    ones being skipped, and NaN only when no sample has a distance. *)
Theorem total_distance_skips_undefined (merged : DataFrame) :
  ("Distance" ∉ columns merged -> total_distance_of merged = Ok (Fin 0)) /\
  ("Distance" ∈ columns merged ->
   (forall r, r ∈ rows merged -> cell r.2 "Distance" = NaN) ->
   total_distance_of merged = Ok NaN) /\
  ("Distance" ∈ columns merged ->
   forall r0 v0, r0 ∈ rows merged -> cell r0.2 "Distance" = Fin v0 ->
   exists m, total_distance_of merged = Ok (Fin m) /\
             (exists r, r ∈ rows merged /\ cell r.2 "Distance" = Fin m) /\
             forall r v, r ∈ rows merged -> cell r.2 "Distance" = Fin v ->
                         (v <= m)%Q).
Proof.
  unfold total_distance_of, has_column.
  assert (Hmem : forall v,
            v ∈ filter (fun v => notna v = true)
                  (map (fun r => cell r.2 "Distance") (rows merged)) <->
            notna v = true /\ exists r, r ∈ rows merged /\ cell r.2 "Distance" = v).
  { intros v. rewrite list_elem_of_filter, list_elem_of_In, in_map_iff.
    split; intros [Hv (r & H1 & H2)]; (split; [done|]); exists r.
    - by rewrite list_elem_of_In.
    - by rewrite <- list_elem_of_In. }
  split; [|split].
  - intros H. by rewrite bool_decide_eq_false_2.
  - intros H Hall. rewrite bool_decide_eq_true_2 by done.
    rewrite (values_in _ _ H). cbn. unfold py_float, series_max.
    destruct (filter _ _) as [|v vs] eqn:Hf; [done|].
    assert (Hv : v ∈ v :: vs) by (by left).
    apply Hmem in Hv as [Hv (r & Hr & Hc)]. rewrite (Hall r Hr) in Hc.
    by subst v.
  - intros H r0 v0 Hr0 Hc0. rewrite bool_decide_eq_true_2 by done.
    rewrite (values_in _ _ H). cbn. unfold py_float, series_max.
    destruct (filter _ _) as [|v vs] eqn:Hf.
    { assert (Hin : Fin v0 ∈ ([] : list pyfloat)); [|by apply elem_of_nil in Hin].
      apply Hmem. split; [done|]. by exists r0. }
    assert (Hall : Forall (fun v => notna v = true) (v :: vs)).
    { apply Forall_forall. intros w Hw. by apply Hmem in Hw as [? _]. }
    apply Forall_cons in Hall as [Hv Hvs].
    destruct (fold_fmax_spec _ _ Hv Hvs) as (m & -> & Hin & Hle).
    exists m. split; [done|]. split.
    + by apply Hmem in Hin as [_ ?].
    + intros r q Hr Hc. apply Hle. apply Hmem.
      split; [done|]. by exists r.
Qed.

(** ** Streams that cannot be answered *)

Ltac dynamics_column c :=
  match goal with
  | |- context [bool_decide (c ∈ ?cols)] =>
      let Hc := fresh "Hc" in
      destruct (decide (c ∈ cols)) as [Hc|Hc];
      [ rewrite (bool_decide_eq_true_2 _ Hc); cbn [negb];
        first [rewrite (float_or_zero_in _ _ _ Hc) | rewrite (int_or_zero_in _ _ _ Hc)];
        cbn [mbind result_bind]
      | rewrite (bool_decide_eq_false_2 _ Hc); cbn [negb];
        intros [= <-]; unfold float_or_zero, int_or_zero;
        rewrite (getitem_out _ _ _ Hc); reflexivity ]
  end.

Lemma point_first_missing cols a b c d row col :
  "X" ∈ cols -> "Y" ∈ cols -> first_missing cols = Some col ->
  point cols a b c d row = Raise (PyError KeyError (repr col)).
Proof.
  intros HX HY. unfold first_missing, dynamics. cbn [find]. unfold point.
  rewrite (getitem_in _ _ _ HX), (getitem_in _ _ _ HY), distance_val_eq.
  unfold py_float. cbn [mbind result_bind].
  dynamics_column "Speed". dynamics_column "Throttle". dynamics_column "Brake".
  dynamics_column "nGear". dynamics_column "RPM". dynamics_column "DRS".
  dynamics_column "Time". done.
Qed.

Lemma normalize_first_missing merged col :
  "X" ∈ columns merged -> "Y" ∈ columns merged -> rows merged <> [] ->
  first_missing (columns merged) = Some col ->
  normalize merged = Raise (PyError KeyError (repr col)).
Proof.
  intros HX HY Hne Hcol. unfold normalize.
  rewrite (values_in _ _ HX), (values_in _ _ HY). cbn.
  unfold telemetry_points.
  destruct (rows merged) as [|r0 rs]; [done|]. cbn.
  by rewrite (point_first_missing _ _ _ _ _ _ _ HX HY Hcol).
Qed.

(** Telemetry that carries X and Y but lacks a column of the dynamics
    fields: the request ends as a 500 whose text names the first such
    column, in the order Speed, Throttle, Brake, nGear, RPM, DRS, Time. *)
Theorem missing_dynamics_column_is_500
    fastf1 year round session driver lap_number t sess lap tel col :
  reaches_telemetry fastf1 year round session driver lap_number t sess lap tel ->
  has_xy tel = true ->
  first_missing (columns tel) = Some col ->
  col ∈ dynamics /\ (col ∉ columns tel) /\
  get_lap_data fastf1 year round session driver lap_number =
  (t ++ [GetTelemetry], Raise (HTTPException 500 (repr col))).
Proof.
  intros Hreach Hxy Hcol.
  split; [|split].
  - apply find_some in Hcol as [Hin _]. by apply list_elem_of_In.
  - apply find_some in Hcol as [_ Hb]. apply negb_true_iff in Hb.
    by apply bool_decide_eq_false in Hb.
  - pose proof Hreach as (_ & _ & _ & _ & Hne).
    assert (Hm : merged_data lap tel = ([], Ok tel)).
    { unfold merged_data. unfold has_xy in Hxy. by rewrite Hxy. }
    unfold has_xy, has_column in Hxy.
    apply andb_true_iff in Hxy as [HX%bool_decide_eq_true HY%bool_decide_eq_true].
    assert (Hrows : rows tel <> []).
    { intros Hr. unfold empty in Hne. by rewrite Hr in Hne. }
    rewrite (get_lap_data_reconcile _ _ _ _ _ _ _ _ _ _ Hreach).
    unfold reconcile, mbind, handler_bind. rewrite Hm, Hne.
    unfold lift, response.
    rewrite (normalize_first_missing _ _ HX HY Hrows Hcol). cbn.
    by rewrite ?app_nil_r.
Qed.

Lemma string_length_app (a b : string) :
  String.length (a +:+ b) = (String.length a + String.length b)%nat.
Proof. induction a as [|c a IH]; [done|]. rewrite append_cons. cbn. by rewrite IH. Qed.

(** A one-letter label that both frames have is not a label of their
    merge: each side's column gets its suffix. *)
Lemma merge_clash (left right : DataFrame) c :
  (String.length c < 2)%nat ->
  c ∈ columns left -> c ∈ columns right -> c ∉ columns (merge left right).
Proof.
  intros Hlen Hl Hr Hin. unfold merge in Hin. cbn [columns] in Hin.
  apply elem_of_app in Hin as [Hin|Hin];
    apply list_elem_of_In, in_map_iff in Hin as (c' & Hc' & _);
    unfold suffixed in Hc'; case_bool_decide as Hd; try congruence;
    apply (f_equal String.length) in Hc'; rewrite string_length_app in Hc';
    cbn in Hc'; lia.
Qed.

(** Telemetry that has one of the columns X and Y but not the other is
    merged with a position source, and the coordinate it has then exists
    twice under suffixed labels: no such request is answered. *)
Theorem lone_coordinate_is_never_answered
    fastf1 year round session driver lap_number t sess lap tel :
  reaches_telemetry fastf1 year round session driver lap_number t sess lap tel ->
  has_column "X" tel <> has_column "Y" tel ->
  forall resp,
    (get_lap_data fastf1 year round session driver lap_number).2 <> Ok resp.
Proof.
  intros Hreach Hlone resp Hrun.
  assert (Hx : has_xy tel = false).
  { unfold has_xy. destruct (has_column "X" tel), (has_column "Y" tel); done. }
  rewrite (get_lap_data_reconcile _ _ _ _ _ _ _ _ _ _ Hreach) in Hrun.
  unfold reconcile, mbind, handler_bind, raise, lift in Hrun.
  destruct (merged_data lap tel) as [t1 [m|e]] eqn:Em;
    [|by rewrite at_boundary_raise in Hrun].
  destruct (empty m); [by rewrite at_boundary_raise in Hrun|].
  destruct (response sess driver lap m) as [resp'|e] eqn:Er;
    [|by rewrite at_boundary_raise in Hrun].
  apply response_inv, normalize_inv in Er as (HX & HY & _).
  destruct (merged_data_merge _ _ _ _ Hx Em) as (pos & proj & Hpos & Hproj & ->).
  destruct (getitem_columns_ok _ _ _ Hproj) as (Hcols & _).
  assert (HpX : "X" ∈ columns proj /\ "Y" ∈ columns proj).
  { rewrite Hcols. destruct (pos_columns_shape tel pos) as [[-> _]|(-> & _)];
      split; by repeat constructor. }
  destruct HpX as [HpX HpY]. unfold has_column in Hlone.
  destruct (decide ("X" ∈ columns tel)) as [Ht|Ht].
  - apply (merge_clash tel proj "X"); [cbn; lia | done | done | done].
  - destruct (decide ("Y" ∈ columns tel)) as [Ht'|Ht'].
    + apply (merge_clash tel proj "Y"); [cbn; lia | done | done | done].
    + by rewrite !bool_decide_eq_false_2 in Hlone.
Qed.

(** ** What the merge keeps *)

Lemma suffix_longer (c' suffix c : string) :
  (String.length c < String.length suffix)%nat -> c' +:+ suffix <> c.
Proof.
  intros Hlen H. apply (f_equal String.length) in H.
  rewrite string_length_app in H. lia.
Qed.

Lemma merge_row_right_cell lcols rcols l r c :
  c ∈ rcols -> c ∉ lcols -> (String.length c < 2)%nat ->
  cell (merge_row lcols rcols l r) c = cell r c.
Proof.
  intros Hr Hl Hlen. unfold cell at 1, merge_row. rewrite lookup_keyed_miss.
  - rewrite <- (app_nil_r (map _ rcols)).
    rewrite (lookup_keyed_hit (suffixed "_y" lcols) (fun c => default NaN (r !! c)));
      [done | done | unfold suffixed; by rewrite bool_decide_eq_false_2 |].
    intros c' _. unfold suffixed. case_bool_decide as Hd; [|done].
    intros Heq. by destruct (suffix_longer c' "_y" c).
  - intros c' Hc'. unfold suffixed. case_bool_decide as Hd.
    + by apply suffix_longer.
    + congruence.
Qed.

Lemma merge_row_left_cell lcols rcols l r c :
  c ∈ lcols -> c ∉ rcols ->
  (forall c', c' ∈ rcols -> c' +:+ "_x" <> c) ->
  cell (merge_row lcols rcols l r) c = cell l c.
Proof.
  intros Hl Hr Hx. unfold cell at 1, merge_row.
  rewrite (lookup_keyed_hit (suffixed "_x" rcols) (fun c => default NaN (l !! c)));
    [done | done | unfold suffixed; by rewrite bool_decide_eq_false_2 |].
  intros c' _. unfold suffixed. case_bool_decide as Hc'; [|done].
  intros Heq. by destruct (Hx c' Hc').
Qed.

Lemma merge_columns_left (left right : DataFrame) c :
  c ∈ columns left -> c ∉ columns right -> c ∈ columns (merge left right).
Proof.
  intros Hl Hr. unfold merge. cbn [columns]. apply elem_of_app. left.
  apply list_elem_of_In, in_map_iff. exists c. rewrite <- list_elem_of_In.
  split; [|done]. unfold suffixed. by rewrite bool_decide_eq_false_2.
Qed.

Lemma merge_columns_right (left right : DataFrame) c :
  c ∈ columns right -> c ∉ columns left -> c ∈ columns (merge left right).
Proof.
  intros Hr Hl. unfold merge. cbn [columns]. apply elem_of_app. right.
  apply list_elem_of_In, in_map_iff. exists c. rewrite <- list_elem_of_In.
  split; [|done]. unfold suffixed. by rewrite bool_decide_eq_false_2.
Qed.

Lemma dynamics_not_position c c' :
  c ∈ dynamics -> c' ∈ ["X"; "Y"; "Z"; "Distance"] -> c <> c' /\ c' +:+ "_x" <> c.
Proof.
  unfold dynamics. rewrite !elem_of_cons, !elem_of_nil.
  intros [->|[->|[->|[->|[->|[->|[->|[]]]]]]]] [->|[->|[->|[->|[]]]]];
    split; discriminate.
Qed.

Lemma merged_rows_cells lap tel t m :
  "X" ∉ columns tel -> "Y" ∉ columns tel ->
  merged_data lap tel = (t, Ok m) ->
  exists pos,
    pos_data lap = (t, Ok pos) /\
    "X" ∈ columns m /\ "Y" ∈ columns m /\
    (forall c, c ∈ dynamics -> c ∈ columns tel -> c ∈ columns m) /\
    forall i row, (i, row) ∈ rows m ->
      exists l r, (i, l) ∈ rows tel /\ (i, r) ∈ rows pos /\
        cell row "X" = cell r "X" /\ cell row "Y" = cell r "Y" /\
        forall c, c ∈ dynamics -> c ∈ columns tel -> cell row c = cell l c.
Proof.
  intros HX HY Hm.
  assert (Hx : has_xy tel = false).
  { unfold has_xy, has_column. by rewrite (bool_decide_eq_false_2 _ HX). }
  destruct (merged_data_merge _ _ _ _ Hx Hm) as (pos & proj & Hpos & Hproj & ->).
  destruct (getitem_columns_ok _ _ _ Hproj) as (Hcols & _ & _ & Hrows).
  assert (Hsub : forall c, c ∈ columns proj -> c ∈ ["X"; "Y"; "Z"; "Distance"]).
  { intros c. rewrite Hcols.
    destruct (pos_columns_shape tel pos) as [[-> _]|(-> & _)]; [|done].
    rewrite !elem_of_cons. tauto. }
  assert (HpX : "X" ∈ columns proj /\ "Y" ∈ columns proj).
  { rewrite Hcols. destruct (pos_columns_shape tel pos) as [[-> _]|(-> & _)];
      split; by repeat constructor. }
  destruct HpX as [HpX HpY].
  assert (Hdyn : forall c, c ∈ dynamics -> (c ∉ columns proj) /\
                           forall c', c' ∈ columns proj -> c' +:+ "_x" <> c).
  { intros c Hc. split.
    - intros Hin. by destruct (dynamics_not_position c c Hc (Hsub _ Hin)).
    - intros c' Hc'. by destruct (dynamics_not_position c c' Hc (Hsub _ Hc')). }
  exists pos. split; [done|].
  split; [by apply merge_columns_right|]. split; [by apply merge_columns_right|].
  split.
  - intros c Hc Ht. apply merge_columns_left; [done|]. by apply Hdyn.
  - intros i row (l & r' & Hl & Hr' & ->)%merge_rows.
    destruct (Hrows _ _ Hr') as (r & Hr & Hcell).
    exists l, r. split; [done|]. split; [done|].
    rewrite <- Hcols in Hcell. split; [|split].
    + rewrite merge_row_right_cell; [by apply Hcell | done | done | cbn; lia].
    + rewrite merge_row_right_cell; [by apply Hcell | done | done | cbn; lia].
    + intros c Hc Ht. destruct (Hdyn c Hc) as [Hn Hs].
      by apply merge_row_left_cell.
Qed.

(** Telemetry without X and Y, merged: the merged frame has the columns X
    and Y and every dynamics column of the telemetry; in each of its rows
    X and Y are those of the position row and the dynamics cells those of
    the telemetry row of the same index label. *)
Theorem merged_rows_provenance lap tel t m :
  "X" ∉ columns tel -> "Y" ∉ columns tel ->
  merged_data lap tel = (t, Ok m) ->
  exists pos,
    pos_data lap = (t, Ok pos) /\
    "X" ∈ columns m /\ "Y" ∈ columns m /\
    (forall c, c ∈ dynamics -> c ∈ columns tel -> c ∈ columns m) /\
    forall i row, (i, row) ∈ rows m ->
      exists l r, (i, l) ∈ rows tel /\ (i, r) ∈ rows pos /\
        cell row "X" = cell r "X" /\ cell row "Y" = cell r "Y" /\
        forall c, c ∈ dynamics -> c ∈ columns tel -> cell row c = cell l c.
Proof. apply merged_rows_cells. Qed.

Lemma filter_index_single {V} (i : Z) (R : list (Z * V)) :
  NoDup (map fst R) -> i ∈ map fst R ->
  exists r, filter (fun r => r.1 = i) R = [r].
Proof.
  intros Hnd Hin. pose proof (filter_index_unique i R Hnd) as Hlen.
  apply list_elem_of_In, in_map_iff in Hin as (r & Hr & Hin).
  assert (Hf : r ∈ filter (fun r => r.1 = i) R).
  { apply list_elem_of_filter. split; [done | by apply list_elem_of_In]. }
  destruct (filter _ R) as [|r1 [|r2 rest]];
    [by apply elem_of_nil in Hf | by exists r1 | cbn in Hlen; lia].
Qed.

Lemma merge_index_ordered (left right : DataFrame) :
  NoDup (index right) ->
  index (merge left right) = filter (fun i => i ∈ index right) (index left).
Proof.
  intros Hnd. change (index left) with (map fst (rows left)).
  change (index (merge left right)) with (map fst (rows (merge left right))).
  unfold merge. cbn [rows].
  induction (rows left) as [|l L IH]; [done|]. cbn [flat_map map].
  rewrite map_app, IH, filter_cons, map_map. cbn.
  destruct (decide (l.1 ∈ index right)) as [Hin|Hout].
  - destruct (filter_index_single l.1 (rows right) Hnd Hin) as [r ->]. done.
  - by rewrite (filter_index_absent _ _ Hout).
Qed.

(** With index labels that are pairwise distinct in each stream, the
    merged stream has the telemetry labels that the position stream also
    has, in the order of the telemetry. *)
Theorem merge_keeps_telemetry_order lap tel t m pos :
  has_xy tel = false ->
  merged_data lap tel = (t, Ok m) ->
  pos_data lap = (t, Ok pos) ->
  NoDup (index tel) -> NoDup (index pos) ->
  index m = filter (fun i => i ∈ index pos) (index tel) /\
  NoDup (index m).
Proof.
  intros Hx Hm Hpos Ht Hp.
  destruct (merged_data_merge _ _ _ _ Hx Hm) as (pos' & proj & Hpos' & Hproj & ->).
  rewrite Hpos in Hpos'. injection Hpos' as <-.
  destruct (getitem_columns_ok _ _ _ Hproj) as (_ & Hidx & _).
  rewrite merge_index_ordered by (by rewrite Hidx). rewrite Hidx.
  split; [done|]. by apply NoDup_filter.
Qed.

(** ** The wording that makes a load error transient *)

Lemma lower_app (a b : string) : lower (a +:+ b) = lower a +:+ lower b.
Proof. induction a as [|c a IH]; [done|]. rewrite append_cons. cbn. by rewrite IH. Qed.

Lemma lower_app_inv (a : string) : forall m b,
  lower m = a +:+ b -> exists m1 m2, m = m1 +:+ m2 /\ lower m1 = a /\ lower m2 = b.
Proof.
  induction a as [|c a IH]; intros m b H.
  - by exists EmptyString, m.
  - destruct m as [|d m]; [discriminate H|]. rewrite append_cons in H. cbn in H.
    injection H as Hc Hm. destruct (IH _ _ Hm) as (m1 & m2 & -> & H1 & H2).
    exists (String d m1), m2. cbn. by rewrite Hc, H1.
Qed.

(** The load error is taken for transient exactly when its text has, in
    any letter case and at any place, the word "ergast" or "timeout". *)
Theorem transient_wording (e : exn) :
  is_transient e = true <->
  exists pre w post,
    str e = pre +:+ w +:+ post /\ (lower w = "ergast" \/ lower w = "timeout").
Proof.
  unfold is_transient. rewrite orb_true_iff, !contains_spec. split.
  - intros [(p & s & H)|(p & s & H)];
      destruct (lower_app_inv _ _ _ H) as (pre & rest & Hm & _ & Hrest);
      destruct (lower_app_inv _ _ _ Hrest) as (w & post & -> & Hw & _);
      exists pre, w, post; auto.
  - intros (pre & w & post & -> & [Hw|Hw]); [left|right];
      exists (lower pre), (lower post); by rewrite !lower_app, Hw.
Qed.

(** ** get_drivers *)

Lemma elem_of_unique l x : x ∈ unique l <-> x ∈ l.
Proof.
  induction l as [|a l IH]; [done|]. cbn [unique].
  rewrite !elem_of_cons, list_elem_of_filter, IH.
  destruct (decide (x = a)); tauto.
Qed.

Lemma NoDup_unique l : NoDup (unique l).
Proof.
  induction l as [|a l IH]; [constructor|]. cbn [unique]. apply NoDup_cons. split.
  - rewrite list_elem_of_filter. tauto.
  - by apply NoDup_filter.
Qed.

(** The drivers endpoint loads the session once, with every argument left
    to its default, and asks no lap for its data; a load that raises is
    not retried, whatever its text; and every failure is a 500. *)
Theorem get_drivers_loads_once fastf1 Team year round session :
  let run := get_drivers fastf1 Team year round session in
  run.1 = [SessionLoad default_load] /\
  (forall msg, fastf1 year round session default_load = Raises msg ->
     run.2 = Raise (HTTPException 500 msg)) /\
  (forall e, run.2 = Raise e -> exists detail, e = HTTPException 500 detail).
Proof.
  unfold get_drivers, invoke, try_except, mbind, handler_bind, lift, raise.
  destruct (fastf1 year round session default_load) as [sess|msg]; cbn.
  - destruct (for_each _ _) as [found|e]; cbn.
    + split; [done|]. split; [done|]. intros e H. discriminate H.
    + split; [done|]. split; [done|]. intros e' [= <-]. eauto.
  - split; [done|]. split; [by intros m [= <-]|]. intros e [= <-]. eauto.
Qed.

Lemma driver_summary_timed Team all_laps driver l :
  pick_fastest (pick_drivers driver all_laps) = Some l ->
  driver_summary Team all_laps driver =
  Ok [DriverSummary.mk driver (LapTime l) (Team l)].
Proof.
  intros Hp. unfold driver_summary.
  destruct (pick_drivers driver all_laps) as [|l0 rest] eqn:E; [done|].
  cbn [is_nil negb]. rewrite Hp. cbn.
  destruct (pick_fastest_spec _ _ Hp) as (_ & Ht & _).
  unfold isna. by destruct (Z.eqb_spec (LapTime l) NaT).
Qed.

Lemma driver_summaries Team all_laps codes :
  (forall c, c ∈ codes -> is_Some (pick_fastest (pick_drivers c all_laps))) ->
  exists found,
    for_each (driver_summary Team all_laps) codes = Ok found /\
    map DriverSummary.code (concat found) = codes /\
    Forall (fun d =>
              exists l, pick_fastest (pick_drivers (DriverSummary.code d) all_laps) = Some l /\
                        DriverSummary.fastest_lap d = LapTime l /\
                        DriverSummary.team d = Team l)
           (concat found).
Proof.
  induction codes as [|c codes IH]; intros H.
  - exists []. by repeat split.
  - destruct (H c ltac:(left)) as [l Hl].
    destruct IH as (found & Hf & Hcodes & Hall); [intros c' Hc'; apply H; by right|].
    exists ([DriverSummary.mk c (LapTime l) (Team l)] :: found). cbn.
    rewrite (driver_summary_timed _ _ _ _ Hl), Hf. cbn.
    split; [done|]. split; [by rewrite Hcodes|].
    constructor; [by exists l | done].
Qed.

(** When every driver of the session has a lap with a lap time, the
    drivers endpoint lists every driver once, in the order of their first
    lap in the session, each with the least of the driver's lap times and
    the team of that lap. *)
Theorem get_drivers_lists_each_driver fastf1 Team year round session sess :
  fastf1 year round session default_load = Returns sess ->
  (forall l, l ∈ laps sess ->
     exists l', l' ∈ laps sess /\ Driver l' = Driver l /\ LapTime l' <> NaT) ->
  exists resp,
    get_drivers fastf1 Team year round session =
      ([SessionLoad default_load], Ok resp) /\
    DriversResponse.year resp = year /\
    DriversResponse.round resp = round /\
    DriversResponse.session resp = session /\
    map DriverSummary.code (DriversResponse.drivers resp) =
      unique (map Driver (laps sess)) /\
    NoDup (map DriverSummary.code (DriversResponse.drivers resp)) /\
    (forall l, l ∈ laps sess ->
       Driver l ∈ map DriverSummary.code (DriversResponse.drivers resp)) /\
    Forall (fun d =>
              exists l, l ∈ laps sess /\ Driver l = DriverSummary.code d /\
                LapTime l <> NaT /\
                DriverSummary.fastest_lap d = LapTime l /\
                DriverSummary.team d = Team l /\
                forall l', l' ∈ laps sess -> Driver l' = DriverSummary.code d ->
                           LapTime l' <> NaT ->
                           DriverSummary.fastest_lap d <= LapTime l')
           (DriversResponse.drivers resp).
Proof.
  intros Hload Htimed.
  destruct (driver_summaries Team (laps sess) (unique (map Driver (laps sess))))
    as (found & Hf & Hcodes & Hall).
  { intros c Hc. apply elem_of_unique, list_elem_of_In, in_map_iff in Hc
      as (l & <- & Hl%list_elem_of_In).
    destruct (Htimed l Hl) as (l' & Hl' & Hd & Ht).
    apply (pick_fastest_is_Some _ l'); [|done].
    by apply (list_elem_of_filter (fun x => Driver x = Driver l)). }
  eexists. split.
  { unfold get_drivers, invoke, try_except, mbind, handler_bind, lift.
    rewrite Hload. cbn. rewrite Hf. cbn. reflexivity. }
  cbn. do 3 (split; [done|]). split; [done|].
  split; [rewrite Hcodes; apply NoDup_unique|]. split.
  - intros l Hl. rewrite Hcodes. apply elem_of_unique, list_elem_of_In, in_map_iff.
    exists l. by rewrite <- list_elem_of_In.
  - eapply Forall_impl; [exact Hall|]. intros d (l & Hp & Hfast & Hteam).
    destruct (pick_fastest_spec _ _ Hp) as (Hin & Ht & Hmin).
    apply (list_elem_of_filter (fun x => Driver x = DriverSummary.code d))
      in Hin as [Hd Hin].
    exists l. do 5 (split; [done|]). intros l' Hl' Hd' Ht'. rewrite Hfast.
    apply Hmin; [|done].
    by apply (list_elem_of_filter (fun x => Driver x = DriverSummary.code d)).
Qed.

(** ** A merged stream that is answered *)

(** Telemetry without X and Y but with the dynamics columns, a position
    source with X, Y and Z, and an index label that both streams have: the
    request is answered, with one point per row of the merged stream. *)
Theorem merged_stream_is_answered
    fastf1 year round session driver lap_number t sess lap tel t1 pos i :
  reaches_telemetry fastf1 year round session driver lap_number t sess lap tel ->
  "X" ∉ columns tel -> "Y" ∉ columns tel ->
  (forall c, c ∈ dynamics -> c ∈ columns tel) ->
  pos_data lap = (t1, Ok pos) ->
  "Z" ∈ columns pos ->
  i ∈ index tel -> i ∈ index pos ->
  exists merged resp,
    merged_data lap tel = (t1, Ok merged) /\
    get_lap_data fastf1 year round session driver lap_number =
      (t ++ GetTelemetry :: t1, Ok resp) /\
    length (LapDataResponse.telemetry resp) = len merged /\
    (0 < len merged)%nat.
Proof.
  intros Hreach HX HY Hd Hpos HZ Hi Hip.
  assert (Hx : has_xy tel = false).
  { unfold has_xy, has_column. by rewrite (bool_decide_eq_false_2 _ HX). }
  destruct (yields_xy_columns _ (pos_data_ok _ _ _ Hpos)) as (HpX & HpY & _).
  destruct (projection_with_z tel pos HpX HpY HZ) as [proj Hproj].
  destruct (getitem_columns_ok _ _ _ Hproj) as (_ & Hidx & _ & _).
  assert (Hm : merged_data lap tel = (t1, Ok (merge tel proj))).
  { unfold merged_data. unfold has_xy in Hx. rewrite Hx.
    unfold mbind, handler_bind, lift, mret, handler_ret. rewrite Hpos, Hproj.
    by rewrite !app_nil_r. }
  destruct (merged_rows_cells _ _ _ _ HX HY Hm)
    as (pos' & _ & HmX & HmY & Hmd & _).
  assert (Hrows : rows (merge tel proj) <> []).
  { assert (Hin : i ∈ index (merge tel proj))
      by (apply merge_index; by rewrite Hidx).
    apply elem_of_index in Hin as [row Hrow]. intros Hnil.
    rewrite Hnil in Hrow. by apply elem_of_nil in Hrow. }
  assert (He : empty (merge tel proj) = false).
  { unfold empty. destruct (rows (merge tel proj)); [done|].
    destruct (columns (merge tel proj)); [by apply elem_of_nil in HmX | done]. }
  destruct (response_ok sess driver lap (merge tel proj) HmX HmY)
    as (resp & Hresp & _ & _ & Htel); [by auto | done |].
  exists (merge tel proj), resp. split; [done|]. split; [|split].
  - rewrite (get_lap_data_reconcile _ _ _ _ _ _ _ _ _ _ Hreach).
    unfold reconcile, mbind, handler_bind. rewrite Hm, He.
    unfold lift. rewrite Hresp. cbn. by rewrite !app_nil_r.
  - rewrite Htel. unfold len. apply length_map.
  - unfold len. destruct (rows (merge tel proj)); [done | cbn; lia].
Qed.

(** * Further worked instances *)

Lemma isna_false t : isna t = false -> t <> NaT.
Proof. unfold isna. by intros H%Z.eqb_neq. Qed.

Lemma paddock_reaches driver lap_number lap tel :
  select_lap (pick_drivers driver (laps Paddock.race)) lap_number = Ok (Some lap) ->
  isna (LapTime lap) = false ->
  get_telemetry lap = Returns tel ->
  empty tel = false ->
  reaches_telemetry Paddock.steady 2023 1 "R" driver lap_number
    [SessionLoad full_load] Paddock.race lap tel.
Proof. intros ? ?%isna_false ? ?. by repeat split. Qed.

Lemma merged_ham :
  merged_data Sample.ham_3 Sample.telemetry_plain =
  ([GetPosData], Ok (merge Sample.telemetry_plain Sample.position_xyz)).
Proof. vm_compute. reflexivity. Qed.

(** LEC's position stream has no Z: a 500. *)
Lemma get_lap_data_fails_with_404_or_500_witness :
  exists detail,
    HTTPException 500 (dquote +:+ "['Z'] not in index" +:+ dquote) =
      HTTPException 404 detail \/
    HTTPException 500 (dquote +:+ "['Z'] not in index" +:+ dquote) =
      HTTPException 500 detail.
Proof.
  apply (get_lap_data_fails_with_404_or_500 Sample.steady 2023 1 "Q" "LEC" None
           [SessionLoad full_load; GetTelemetry; GetPosData]).
  vm_compute. reflexivity.
Defined.

(** PER has no lap in the session. *)
Lemma driver_without_laps_is_404_witness :
  get_lap_data Sample.steady 2023 1 "Q" "PER" (Some 3) =
  ([SessionLoad full_load],
   Raise (HTTPException 404 ("No laps found for driver " +:+ "PER"))).
Proof.
  apply (driver_without_laps_is_404 Sample.steady 2023 1 "Q" "PER" (Some 3)
           [SessionLoad full_load] Sample.qualifying); [reflexivity|].
  intros l Hl.
  change (l ∈ [Sample.ver_1; Sample.ver_5; Sample.ham_3; Sample.lec_2;
               Sample.sai_4; Sample.nor_6; Sample.alb_7]) in Hl.
  rewrite !elem_of_cons, elem_of_nil in Hl.
  destruct Hl as [->|[->|[->|[->|[->|[->|[->|[]]]]]]]]; vm_compute; discriminate.
Defined.

(** BOT's telemetry cannot be fetched; ZHO's has no sample. *)
Lemma telemetry_unavailable_witness :
  get_lap_data Paddock.steady 2023 1 "R" "BOT" None =
    ([SessionLoad full_load; GetTelemetry],
     Raise (HTTPException 500 "no telemetry for this lap")) /\
  get_lap_data Paddock.steady 2023 1 "R" "ZHO" None =
    ([SessionLoad full_load; GetTelemetry],
     Raise (HTTPException 404 "No telemetry data available for this lap")).
Proof.
  split.
  - destruct (telemetry_unavailable Paddock.steady 2023 1 "R" "BOT" None
                [SessionLoad full_load] Paddock.race Paddock.bot_1
                eq_refl eq_refl (isna_false (LapTime Paddock.bot_1) eq_refl))
      as [H _].
    apply H. reflexivity.
  - destruct (telemetry_unavailable Paddock.steady 2023 1 "R" "ZHO" None
                [SessionLoad full_load] Paddock.race Paddock.zho_2
                eq_refl eq_refl (isna_false (LapTime Paddock.zho_2) eq_refl))
      as [_ H].
    apply (H Paddock.telemetry_empty); reflexivity.
Defined.

(** GAS: telemetry labels 0, 1, 2, position labels 7, 8. *)
Lemma disjoint_streams_are_404_witness :
  get_lap_data Paddock.steady 2023 1 "R" "GAS" None =
  ([SessionLoad full_load; GetTelemetry; GetPosData],
   Raise (HTTPException 404 "Could not merge telemetry with position data")).
Proof.
  apply (proj1 (disjoint_streams_are_404 Paddock.steady 2023 1 "R" "GAS" None
                  [SessionLoad full_load] Paddock.race Paddock.gas_3
                  Sample.telemetry_plain [GetPosData] Paddock.position_late
                  (paddock_reaches "GAS" None Paddock.gas_3 Sample.telemetry_plain
                     eq_refl eq_refl eq_refl eq_refl)
                  eq_refl eq_refl ltac:(by repeat constructor))).
  intros i Hi Hp.
  change (i ∈ [0; 1; 2]) in Hi. change (i ∈ [7; 8]) in Hp.
  apply list_elem_of_In in Hi. apply list_elem_of_In in Hp.
  cbn in Hi, Hp. lia.
Defined.

(** The first load fails on the result service, the reduced one answers:
    the response is the one of a session loaded at once. *)
Lemma successful_retry_resumes_witness :
  (get_lap_data Paddock.wobbly 2023 1 "Q" "VER" None).2 =
  (get_lap_data Sample.steady 2023 1 "Q" "VER" None).2.
Proof.
  pose proof (successful_retry_resumes Paddock.wobbly Sample.steady 2023 1 "Q"
                "VER" None "Ergast API: Read TimeOut" Sample.qualifying
                eq_refl eq_refl eq_refl eq_refl) as H.
  cbv zeta in H. exact (proj1 H).
Defined.

(** VER's lap 5, asked for by number. *)
Lemma response_identifies_lap_witness :
  exists resp,
    (get_lap_data Sample.steady 2023 1 "Q" "VER" (Some 5)).2 = Ok resp /\
    LapDataResponse.lap_number resp = 5.
Proof.
  destruct (get_lap_data Sample.steady 2023 1 "Q" "VER" (Some 5))
    as [t [resp|e]] eqn:E; [|vm_compute in E; discriminate E].
  exists resp. split; [reflexivity|].
  destruct (response_identifies_lap _ _ _ _ _ _ _ _ E)
    as (sess & lap & _ & _ & _ & _ & _ & _ & _ & _ & Hnum & _).
  destruct (Hnum eq_refl) as [Hn _]. by injection Hn.
Defined.

(** The distances 0, undefined and 14: the total is at least 14. *)
Lemma total_distance_skips_undefined_witness :
  exists m, total_distance_of Sample.telemetry_xy = Ok (Fin m) /\ (14 <= m)%Q.
Proof.
  destruct (total_distance_skips_undefined Sample.telemetry_xy) as (_ & _ & H).
  destruct (H ltac:(by repeat constructor)
              (2, Sample.sample 1 [("X", Fin 20); ("Y", Fin 5); ("Distance", Fin 14)])
              14%Q ltac:(by repeat constructor) eq_refl)
    as (m & Hm & _ & Hle).
  exists m. split; [exact Hm|].
  apply (Hle (2, Sample.sample 1 [("X", Fin 20); ("Y", Fin 5); ("Distance", Fin 14)]));
    [by repeat constructor | reflexivity].
Defined.

(** OCO's telemetry has no RPM column. *)
Lemma missing_dynamics_column_is_500_witness :
  get_lap_data Paddock.steady 2023 1 "R" "OCO" None =
  ([SessionLoad full_load; GetTelemetry], Raise (HTTPException 500 (repr "RPM"))).
Proof.
  exact (proj2 (proj2 (missing_dynamics_column_is_500 Paddock.steady 2023 1 "R"
                         "OCO" None [SessionLoad full_load] Paddock.race
                         Paddock.oco_4 Paddock.telemetry_no_rpm "RPM"
                         (paddock_reaches "OCO" None Paddock.oco_4
                            Paddock.telemetry_no_rpm eq_refl eq_refl eq_refl eq_refl)
                         eq_refl eq_refl))).
Defined.

(** STR's telemetry has X and no Y. *)
Lemma lone_coordinate_is_never_answered_witness :
  match (get_lap_data Paddock.steady 2023 1 "R" "STR" None).2 with
  | Ok _ => False
  | Raise _ => True
  end.
Proof.
  destruct (get_lap_data Paddock.steady 2023 1 "R" "STR" None).2 as [resp|e] eqn:E;
    [|exact I].
  apply (lone_coordinate_is_never_answered Paddock.steady 2023 1 "R" "STR" None
           [SessionLoad full_load] Paddock.race Paddock.str_5
           Paddock.telemetry_x_only
           (paddock_reaches "STR" None Paddock.str_5 Paddock.telemetry_x_only
              eq_refl eq_refl eq_refl eq_refl)
           ltac:(vm_compute; discriminate) resp E).
Defined.

(** HAM: the merged frame has X. *)
Lemma merged_rows_provenance_witness :
  "X" ∈ columns (merge Sample.telemetry_plain Sample.position_xyz).
Proof.
  destruct (merged_rows_provenance Sample.ham_3 Sample.telemetry_plain [GetPosData]
              (merge Sample.telemetry_plain Sample.position_xyz))
    as (pos & _ & HX & _); [| | exact merged_ham | exact HX].
  - apply (bool_decide_unpack ("X" ∉ dynamics)). vm_compute. exact I.
  - apply (bool_decide_unpack ("Y" ∉ dynamics)). vm_compute. exact I.
Defined.

(** HAM: of the telemetry labels 0, 1, 2 the position has 1 and 2. *)
Lemma merge_keeps_telemetry_order_witness :
  index (merge Sample.telemetry_plain Sample.position_xyz) = [1; 2].
Proof.
  destruct (merge_keeps_telemetry_order Sample.ham_3 Sample.telemetry_plain
              [GetPosData] (merge Sample.telemetry_plain Sample.position_xyz)
              Sample.position_xyz eq_refl merged_ham eq_refl) as [H _].
  - apply (bool_decide_unpack (NoDup [0; 1; 2])). vm_compute. exact I.
  - apply (bool_decide_unpack (NoDup [1; 2; 3])). vm_compute. exact I.
  - rewrite H. vm_compute. reflexivity.
Defined.

Lemma transient_wording_witness :
  is_transient (PyError LibraryError "Ergast API: Read TimeOut") = true.
Proof.
  apply transient_wording. exists "", "Ergast", " API: Read TimeOut". by split; [|left].
Defined.

(** The drivers of the sample session, VER first. *)
Lemma get_drivers_lists_each_driver_witness :
  exists resp,
    get_drivers Sample.steady Paddock.team_of 2023 1 "Q" =
      ([SessionLoad default_load], Ok resp) /\
    map DriverSummary.code (DriversResponse.drivers resp) =
      ["VER"; "HAM"; "LEC"; "SAI"; "NOR"; "ALB"].
Proof.
  destruct (get_drivers_lists_each_driver Sample.steady Paddock.team_of 2023 1 "Q"
              Sample.qualifying eq_refl) as (resp & Hrun & _ & _ & _ & Hcodes & _).
  - intros l Hl.
    change (l ∈ [Sample.ver_1; Sample.ver_5; Sample.ham_3; Sample.lec_2;
                 Sample.sai_4; Sample.nor_6; Sample.alb_7]) in Hl.
    rewrite !elem_of_cons, elem_of_nil in Hl.
    destruct Hl as [->|[->|[->|[->|[->|[->|[->|[]]]]]]]];
      [exists Sample.ver_5 | exists Sample.ver_5 | exists Sample.ham_3
      | exists Sample.lec_2 | exists Sample.sai_4 | exists Sample.nor_6
      | exists Sample.alb_7];
      (split; [by repeat constructor|]); (split; [reflexivity|]);
      by apply isna_false.
  - exists resp. split; [exact Hrun|]. rewrite Hcodes. vm_compute. reflexivity.
Defined.

(** HAM: the label 1 is in both streams. *)
Lemma merged_stream_is_answered_witness :
  exists resp,
    get_lap_data Sample.steady 2023 1 "Q" "HAM" None =
      ([SessionLoad full_load; GetTelemetry; GetPosData], Ok resp) /\
    (0 < length (LapDataResponse.telemetry resp))%nat.
Proof.
  destruct (merged_stream_is_answered Sample.steady 2023 1 "Q" "HAM" None
              [SessionLoad full_load] Sample.qualifying Sample.ham_3
              Sample.telemetry_plain [GetPosData] Sample.position_xyz 1
              reaches_ham)
    as (merged & resp & _ & Hrun & Hlen & Hpos).
  - apply (bool_decide_unpack ("X" ∉ dynamics)). vm_compute. exact I.
  - apply (bool_decide_unpack ("Y" ∉ dynamics)). vm_compute. exact I.
  - by intros c Hc.
  - reflexivity.
  - by repeat constructor.
  - change (1 ∈ [0; 1; 2]). by repeat constructor.
  - change (1 ∈ [1; 2; 3]). by repeat constructor.
  - exists resp. split; [exact Hrun|]. by rewrite Hlen.
Defined.

(** TSU has a lap 0 and a faster lap 8: [lap_number=0] is answered with
    lap 8. *)
Lemma lap_number_zero_is_absent_witness :
  exists resp,
    get_lap_data Grid.steady 2023 1 "Q" "TSU" (Some 0) =
      ([SessionLoad full_load; GetTelemetry], Ok resp) /\
    LapDataResponse.lap_number resp = 8.
Proof.
  pose proof (proj2 (lap_number_zero_is_absent Grid.steady 2023 1 "Q" "TSU")
                [SessionLoad full_load] Grid.practice Grid.tsu_8 eq_refl eq_refl)
    as H.
  cbv zeta in H. destruct H as (_ & _ & _ & H).
  destruct (H Sample.telemetry_xy eq_refl eq_refl eq_refl)
    as (resp & Hrun & Hn & _).
  - intros c Hc. change (c ∈ dynamics ++ ["X"; "Y"; "Distance"]).
    apply elem_of_app. by left.
  - exists resp. split; [exact Hrun | exact Hn].
Defined.
